(** * Ledger engine of the business dashboard (src/pages_index.tsx)

    A shallow embedding of the state held by the [BusinessApp] component
    (orders, clients, the order draft and the invoice selection), of the
    event handlers that mutate it, and of the derived invoice values
    ([calculateBalance], [totalUnpaidAmount], the invoice table rows).

    React state is modelled by explicit state passing: a handler reads the
    values captured by the render ([st]) and returns the next state together
    with what it reported through [alert].  The clock ([Date.now()]), the
    render-time date and the answer to [confirm] are inputs of the handlers.
    The expense collection has its own, independent handlers and is left out
    of the state. *)

From Stdlib Require Import String Ascii List ZArith NArith Bool Lia.
From stdpp Require Import base decidable option list strings pretty.
Import ListNotations.

Local Open Scope string_scope.
Local Open Scope list_scope.

(** ** The JavaScript built-ins the component relies on

    [number] is kept abstract: the handlers only add prices, compare a price
    with zero and store numbers.  [String.prototype.trim] and
    [String.prototype.toLowerCase] are Unicode aware in JavaScript; they are
    taken as operations of the runtime as well.  Strings themselves are
    [string]: emptiness, [===] and [startsWith] do not depend on the
    encoding. *)
Class Runtime := {
  num : Type;
  num_zero : num;
  num_add : num -> num -> num;
  num_le : num -> num -> bool;
  trim : string -> string;
  toLowerCase : string -> string;
}.

(** [!s] for a string: only the empty string is falsy. *)
Definition falsy (s : string) : bool :=
  match s with
  | EmptyString => true
  | String _ _ => false
  end.

(** [s.startsWith(p)]. *)
Definition startsWith (s p : string) : bool := String.prefix p s.

(** [a || b] on strings. *)
Definition or_else (a b : string) : string := if falsy a then b else a.

(** ** Data model *)

Inductive PaymentMethod := Cash | Postpaid.

Definition PaymentMethod_eqb (a b : PaymentMethod) : bool :=
  match a, b with
  | Cash, Cash | Postpaid, Postpaid => true
  | _, _ => false
  end.

Inductive Outcome :=
  | Done
  | Alert (message : string).

Section Ledger.
Context {R : Runtime}.

(** [interface Order]. *)
Record Order := {
  order_id : string;
  date : string;
  vehicle : string;
  clientName : string;
  orderType : string;
  location : string;
  cost : num;
  price : num;
  paymentMethod : PaymentMethod;
  paid : bool;
}.

(** [Omit<Order, 'id' | 'paid'>], the type of the order form's draft. *)
Record OrderDraft := {
  draft_date : string;
  draft_vehicle : string;
  draft_clientName : string;
  draft_orderType : string;
  draft_location : string;
  draft_cost : num;
  draft_price : num;
  draft_paymentMethod : PaymentMethod;
}.

(** [interface Client]. *)
Record Client := {
  client_id : string;
  name : string;
}.

(** [{ ...draft, id: i, paid: p }]. *)
Definition spreadOrder (draft : OrderDraft) (i : string) (p : bool) : Order :=
  {| order_id := i;
     date := draft_date draft;
     vehicle := draft_vehicle draft;
     clientName := draft_clientName draft;
     orderType := draft_orderType draft;
     location := draft_location draft;
     cost := draft_cost draft;
     price := draft_price draft;
     paymentMethod := draft_paymentMethod draft;
     paid := p |}.

Definition predefinedClients : list Client :=
  [ {| client_id := "1"; name := "Hassan Bobo" |};
    {| client_id := "2"; name := "Omar Shareif" |};
    {| client_id := "3"; name := "Muhi Aldein" |};
    {| client_id := "4"; name := "Khalifa Shareif" |};
    {| client_id := "5"; name := "Mutwali" |} ].

(** [cs[0]?.name || '']. *)
Definition firstNameOr (cs : list Client) : string :=
  match cs with
  | [] => ""
  | c :: _ => or_else (name c) ""
  end.

(** [defaultNewOrderState]; [today] is [new Date().toISOString().split('T')[0]]
    at render time. *)
Definition defaultNewOrderState (today : string) : OrderDraft :=
  {| draft_date := today;
     draft_vehicle := "";
     draft_clientName := firstNameOr predefinedClients;
     draft_orderType := "";
     draft_location := "";
     draft_cost := num_zero;
     draft_price := num_zero;
     draft_paymentMethod := Cash |}.

(** The [useState] cells of the component that the ledger uses. *)
Record AppState := {
  orders : list Order;
  clients : list Client;
  newOrder : OrderDraft;
  orderPaid : bool;
  editingOrderId : option string;
  newClientName : string;
  showAddClientInput : bool;
  selectedClientForInvoice : string;
  selectedMonthForInvoice : string;
}.

(** The setters; [setOrders], [setClients] and [setNewOrder] take the updater
    function, as the handlers call them. *)
Definition setOrders (f : list Order -> list Order) (s : AppState) : AppState :=
  {| orders := f (orders s); clients := clients s; newOrder := newOrder s;
     orderPaid := orderPaid s; editingOrderId := editingOrderId s;
     newClientName := newClientName s; showAddClientInput := showAddClientInput s;
     selectedClientForInvoice := selectedClientForInvoice s;
     selectedMonthForInvoice := selectedMonthForInvoice s |}.

Definition setClients (f : list Client -> list Client) (s : AppState) : AppState :=
  {| orders := orders s; clients := f (clients s); newOrder := newOrder s;
     orderPaid := orderPaid s; editingOrderId := editingOrderId s;
     newClientName := newClientName s; showAddClientInput := showAddClientInput s;
     selectedClientForInvoice := selectedClientForInvoice s;
     selectedMonthForInvoice := selectedMonthForInvoice s |}.

Definition setNewOrder (f : OrderDraft -> OrderDraft) (s : AppState) : AppState :=
  {| orders := orders s; clients := clients s; newOrder := f (newOrder s);
     orderPaid := orderPaid s; editingOrderId := editingOrderId s;
     newClientName := newClientName s; showAddClientInput := showAddClientInput s;
     selectedClientForInvoice := selectedClientForInvoice s;
     selectedMonthForInvoice := selectedMonthForInvoice s |}.

Definition setOrderPaid (b : bool) (s : AppState) : AppState :=
  {| orders := orders s; clients := clients s; newOrder := newOrder s;
     orderPaid := b; editingOrderId := editingOrderId s;
     newClientName := newClientName s; showAddClientInput := showAddClientInput s;
     selectedClientForInvoice := selectedClientForInvoice s;
     selectedMonthForInvoice := selectedMonthForInvoice s |}.

Definition setEditingOrderId (e : option string) (s : AppState) : AppState :=
  {| orders := orders s; clients := clients s; newOrder := newOrder s;
     orderPaid := orderPaid s; editingOrderId := e;
     newClientName := newClientName s; showAddClientInput := showAddClientInput s;
     selectedClientForInvoice := selectedClientForInvoice s;
     selectedMonthForInvoice := selectedMonthForInvoice s |}.

Definition setNewClientName (n : string) (s : AppState) : AppState :=
  {| orders := orders s; clients := clients s; newOrder := newOrder s;
     orderPaid := orderPaid s; editingOrderId := editingOrderId s;
     newClientName := n; showAddClientInput := showAddClientInput s;
     selectedClientForInvoice := selectedClientForInvoice s;
     selectedMonthForInvoice := selectedMonthForInvoice s |}.

Definition setShowAddClientInput (b : bool) (s : AppState) : AppState :=
  {| orders := orders s; clients := clients s; newOrder := newOrder s;
     orderPaid := orderPaid s; editingOrderId := editingOrderId s;
     newClientName := newClientName s; showAddClientInput := b;
     selectedClientForInvoice := selectedClientForInvoice s;
     selectedMonthForInvoice := selectedMonthForInvoice s |}.

Definition setSelectedClientForInvoice (c : string) (s : AppState) : AppState :=
  {| orders := orders s; clients := clients s; newOrder := newOrder s;
     orderPaid := orderPaid s; editingOrderId := editingOrderId s;
     newClientName := newClientName s; showAddClientInput := showAddClientInput s;
     selectedClientForInvoice := c;
     selectedMonthForInvoice := selectedMonthForInvoice s |}.

Definition setSelectedMonthForInvoice (m : string) (s : AppState) : AppState :=
  {| orders := orders s; clients := clients s; newOrder := newOrder s;
     orderPaid := orderPaid s; editingOrderId := editingOrderId s;
     newClientName := newClientName s; showAddClientInput := showAddClientInput s;
     selectedClientForInvoice := selectedClientForInvoice s;
     selectedMonthForInvoice := m |}.

(** [{ ...d, clientName: c }] and the other single-field updates of the draft
    made by the form's [onChange] callbacks. *)
Definition withClientName (c : string) (d : OrderDraft) : OrderDraft :=
  {| draft_date := draft_date d; draft_vehicle := draft_vehicle d;
     draft_clientName := c; draft_orderType := draft_orderType d;
     draft_location := draft_location d; draft_cost := draft_cost d;
     draft_price := draft_price d; draft_paymentMethod := draft_paymentMethod d |}.

Definition withDate (x : string) (d : OrderDraft) : OrderDraft :=
  {| draft_date := x; draft_vehicle := draft_vehicle d;
     draft_clientName := draft_clientName d; draft_orderType := draft_orderType d;
     draft_location := draft_location d; draft_cost := draft_cost d;
     draft_price := draft_price d; draft_paymentMethod := draft_paymentMethod d |}.

Definition withVehicle (x : string) (d : OrderDraft) : OrderDraft :=
  {| draft_date := draft_date d; draft_vehicle := x;
     draft_clientName := draft_clientName d; draft_orderType := draft_orderType d;
     draft_location := draft_location d; draft_cost := draft_cost d;
     draft_price := draft_price d; draft_paymentMethod := draft_paymentMethod d |}.

Definition withPrice (x : num) (d : OrderDraft) : OrderDraft :=
  {| draft_date := draft_date d; draft_vehicle := draft_vehicle d;
     draft_clientName := draft_clientName d; draft_orderType := draft_orderType d;
     draft_location := draft_location d; draft_cost := draft_cost d;
     draft_price := x; draft_paymentMethod := draft_paymentMethod d |}.

Definition withPaymentMethod (x : PaymentMethod) (d : OrderDraft) : OrderDraft :=
  {| draft_date := draft_date d; draft_vehicle := draft_vehicle d;
     draft_clientName := draft_clientName d; draft_orderType := draft_orderType d;
     draft_location := draft_location d; draft_cost := draft_cost d;
     draft_price := draft_price d; draft_paymentMethod := x |}.

(** ** Order handlers *)

Definition orderAlert : string :=
  "Please fill in all required order fields (Date, Client, Vehicle, Price).".

(** The guard of [handleSaveOrder]:
    [!newOrder.date || !newOrder.clientName || !newOrder.vehicle || newOrder.price <= 0]. *)
Definition orderInvalid (d : OrderDraft) : bool :=
  falsy (draft_date d) || falsy (draft_clientName d) || falsy (draft_vehicle d)
  || num_le (draft_price d) num_zero.

(** [if (editingOrderId)]: [null] and the empty string are falsy. *)
Definition truthyId (e : option string) : option string :=
  match e with
  | Some i => if falsy i then None else Some i
  | None => None
  end.

(** [handleSaveOrder]; [now] is the value of [Date.now()], whose [toString()]
    is its decimal representation. *)
Definition handleSaveOrder (today : string) (now : N) (st : AppState)
  : AppState * Outcome :=
  if orderInvalid (newOrder st) then (st, Alert orderAlert)
  else
    let s1 :=
      match truthyId (editingOrderId st) with
      | Some editing =>
          setEditingOrderId None
            (setOrders (fun prev =>
               List.map (fun order =>
                 if String.eqb (order_id order) editing
                 then spreadOrder (newOrder st) editing (orderPaid st)
                 else order) prev) st)
      | None =>
          let orderToAdd := spreadOrder (newOrder st) (pretty now) (orderPaid st) in
          setOrders (fun prev => prev ++ [orderToAdd]) st
      end in
    (setOrderPaid true (setNewOrder (fun _ => defaultNewOrderState today) s1), Done).

(** [handleEditOrder] (the scrolling of the form is not modelled). *)
Definition handleEditOrder (i : string) (st : AppState) : AppState :=
  match List.find (fun order => String.eqb (order_id order) i) (orders st) with
  | Some orderToEdit =>
      setEditingOrderId (Some i)
        (setOrderPaid (paid orderToEdit)
          (setNewOrder (fun _ =>
             {| draft_date := date orderToEdit;
                draft_vehicle := vehicle orderToEdit;
                draft_clientName := clientName orderToEdit;
                draft_orderType := orderType orderToEdit;
                draft_location := location orderToEdit;
                draft_cost := cost orderToEdit;
                draft_price := price orderToEdit;
                draft_paymentMethod := paymentMethod orderToEdit |}) st))
  | None => st
  end.

(** [editingOrderId === id] for a [string | null] cell. *)
Definition isEditing (e : option string) (i : string) : bool :=
  match e with
  | Some j => String.eqb j i
  | None => false
  end.

(** [handleDeleteOrder]; [confirmed] is the answer to [confirm]. *)
Definition handleDeleteOrder (today : string) (i : string) (confirmed : bool)
  (st : AppState) : AppState :=
  if confirmed then
    let s1 :=
      setOrders (fun prev =>
        List.filter (fun order => negb (String.eqb (order_id order) i)) prev) st in
    if isEditing (editingOrderId st) i then
      setOrderPaid true
        (setNewOrder (fun _ => defaultNewOrderState today)
          (setEditingOrderId None s1))
    else s1
  else st.

Definition handleCancelEditOrder (today : string) (st : AppState) : AppState :=
  setOrderPaid true
    (setNewOrder (fun _ => defaultNewOrderState today)
      (setEditingOrderId None st)).

(** ** Client handlers *)

Definition emptyNameAlert : string := "Client name cannot be empty.".
Definition duplicateNameAlert : string := "Client with this name already exists.".

(** [handleAddClient]. *)
Definition handleAddClient (now : N) (st : AppState) : AppState * Outcome :=
  if String.eqb (trim (newClientName st)) "" then (st, Alert emptyNameAlert)
  else if existsb (fun c =>
            String.eqb (toLowerCase (name c))
                       (toLowerCase (trim (newClientName st)))) (clients st)
  then (st, Alert duplicateNameAlert)
  else
    let clientToAdd :=
      {| client_id := pretty now; name := trim (newClientName st) |} in
    let prev := clients st in
    let s1 := setClients (fun prev => prev ++ [clientToAdd]) st in
    let s2 :=
      if (length prev =? 0)%nat || falsy (selectedClientForInvoice st)
      then setSelectedClientForInvoice (name clientToAdd) s1
      else s1 in
    let s3 := setNewOrder (withClientName (name clientToAdd)) s2 in
    (setShowAddClientInput false (setNewClientName "" s3), Done).

(** [selected === prev.find(c => c.id === id)?.name]: a string is never
    [===] to [undefined]. *)
Definition isNameOf (selected : string) (found : option Client) : bool :=
  match found with
  | Some c => String.eqb selected (name c)
  | None => false
  end.

(** [handleRemoveClient]; [confirmed] is the answer to [confirm]. *)
Definition handleRemoveClient (i : string) (confirmed : bool) (st : AppState)
  : AppState :=
  if confirmed then
    let prev := clients st in
    let updatedClients :=
      List.filter (fun c => negb (String.eqb (client_id c) i)) prev in
    let removed := List.find (fun c => String.eqb (client_id c) i) prev in
    let s1 := setClients (fun _ => updatedClients) st in
    let s2 :=
      if isNameOf (selectedClientForInvoice st) removed
      then setSelectedClientForInvoice (firstNameOr updatedClients) s1
      else s1 in
    if isNameOf (draft_clientName (newOrder st)) removed
    then setNewOrder (withClientName (firstNameOr updatedClients)) s2
    else s2
  else st.

(** ** Financial calculator and invoice *)

(** [calculateBalance]. *)
Definition calculateBalance (order : Order) : num :=
  if PaymentMethod_eqb (paymentMethod order) Postpaid && negb (paid order)
  then price order
  else num_zero.

(** [totalUnpaidAmount], as a function of the three state cells it reads. *)
Definition totalUnpaidAmount (orders : list Order)
  (selectedClientForInvoice selectedMonthForInvoice : string) : num :=
  fold_left (fun sum order => num_add sum (price order))
    (List.filter (fun order =>
       String.eqb (clientName order) selectedClientForInvoice
       && startsWith (date order) selectedMonthForInvoice
       && PaymentMethod_eqb (paymentMethod order) Postpaid
       && negb (paid order)) orders)
    num_zero.

(** [filteredOrders] of [generateInvoicePdf]. *)
Definition filteredOrders (orders : list Order)
  (selectedClientForInvoice selectedMonthForInvoice : string) : list Order :=
  List.filter (fun order =>
    String.eqb (clientName order) selectedClientForInvoice
    && startsWith (date order) selectedMonthForInvoice) orders.

(** The rows of the invoice table: each selected order with its balance. *)
Definition invoiceRows (orders : list Order)
  (selectedClientForInvoice selectedMonthForInvoice : string)
  : list (Order * num) :=
  List.map (fun order => (order, calculateBalance order))
    (List.filter (fun order =>
       String.eqb (clientName order) selectedClientForInvoice
       && startsWith (date order) selectedMonthForInvoice) orders).

(** What the hidden invoice element shows when it is captured: the selection
    it is rendered for, the rows of its table and the total under them. *)
Record InvoiceDocument := {
  doc_client : string;
  doc_month : string;
  lineItems : list (Order * num);
  totalUnpaid : num;
}.

Inductive InvoiceOutcome :=
  | InvoiceAlert (message : string)
  | InvoiceSaved (fileName : string) (doc : InvoiceDocument)
  | InvoiceNotCaptured.

Definition selectAlert : string :=
  "Please select a client and a month to generate the invoice.".
Definition noOrdersAlert : string :=
  "No orders found for the selected client and month.".

(** The invoice element as rendered from a state: the table body and the
    total row of the hidden element. *)
Definition invoiceElement (s : AppState) : InvoiceDocument :=
  {| doc_client := selectedClientForInvoice s;
     doc_month := selectedMonthForInvoice s;
     lineItems :=
       invoiceRows (orders s) (selectedClientForInvoice s)
         (selectedMonthForInvoice s);
     totalUnpaid :=
       totalUnpaidAmount (orders s) (selectedClientForInvoice s)
         (selectedMonthForInvoice s) |}.

(** [generateInvoicePdf].  [st] is the state captured by the click: the two
    checks and the file name read it.  The handler then waits, and captures
    the invoice element as it is by then: [shown] is the state the element
    is rendered from at that moment, or [None] when the element is no longer
    mounted ([invoiceRef.current] is null), in which case nothing is saved
    and nothing is reported.  The handler calls no setter. *)
Definition generateInvoicePdf (st : AppState) (shown : option AppState)
  : AppState * InvoiceOutcome :=
  if falsy (selectedClientForInvoice st) || falsy (selectedMonthForInvoice st)
  then (st, InvoiceAlert selectAlert)
  else
    let filtered :=
      filteredOrders (orders st) (selectedClientForInvoice st)
        (selectedMonthForInvoice st) in
    if (length filtered =? 0)%nat then (st, InvoiceAlert noOrdersAlert)
    else
      match shown with
      | Some later =>
          (st,
           InvoiceSaved
             (selectedClientForInvoice st +:+ "_Invoice_"
                +:+ selectedMonthForInvoice st +:+ ".pdf")
             (invoiceElement later))
      | None => (st, InvoiceNotCaptured)
      end.

(** ** The component as a state machine *)

(** State before the mount effect has run; [thisMonth] is
    [new Date().toISOString().substring(0, 7)]. *)
Definition initialState (today thisMonth : string) : AppState :=
  {| orders := [];
     clients := predefinedClients;
     newOrder := defaultNewOrderState today;
     orderPaid := true;
     editingOrderId := None;
     newClientName := "";
     showAddClientInput := false;
     selectedClientForInvoice := "";
     selectedMonthForInvoice := thisMonth |}.

(** [cs[0].name], read only where the list is known to be non-empty. *)
Definition firstName (cs : list Client) : string :=
  match cs with
  | [] => ""
  | c :: _ => name c
  end.

(** The mount effect; [None] stands for a key absent from [localStorage]. *)
Definition mount (storedOrders : option (list Order))
  (storedClients : option (list Client)) (st : AppState) : AppState :=
  let s1 :=
    match storedOrders with
    | Some parsed => setOrders (fun _ => parsed) st
    | None => st
    end in
  let selectFirst (cs : list Client) (s : AppState) : AppState :=
    setNewOrder (withClientName (firstName cs))
      (setSelectedClientForInvoice (firstName cs) s) in
  match storedClients with
  | Some parsedClients =>
      let s2 := setClients (fun _ => parsedClients) s1 in
      if (0 <? length parsedClients)%nat then selectFirst parsedClients s2
      else if (0 <? length predefinedClients)%nat
           then selectFirst predefinedClients s2
           else s2
  | None =>
      if (0 <? length predefinedClients)%nat
      then selectFirst predefinedClients s1
      else s1
  end.

(** The callbacks of the order form, of the client list and of the invoice
    selectors.  [ChangeOrderPrice] carries [parseFloat(value) || 0]. *)
Inductive Event :=
  | ChangeOrderDate (value : string)
  | ChangeOrderVehicle (value : string)
  | ChangeOrderClient (value : string)
  | ChangeOrderPrice (value : num)
  | ChangePaymentMethod (value : PaymentMethod)
  | ChangeOrderPaid (value : bool)
  | ClickSaveOrder (now : N)
  | ClickEditOrder (i : string)
  | ClickDeleteOrder (i : string) (confirmed : bool)
  | ClickCancelEditOrder
  | ChangeNewClientName (value : string)
  | ClickAddClient (now : N)
  | ClickRemoveClient (i : string) (confirmed : bool)
  | ChangeInvoiceClient (value : string)
  | ChangeInvoiceMonth (value : string).

Definition step (today : string) (st : AppState) (ev : Event) : AppState :=
  match ev with
  | ChangeOrderDate value => setNewOrder (fun _ => withDate value (newOrder st)) st
  | ChangeOrderVehicle value =>
      setNewOrder (fun _ => withVehicle value (newOrder st)) st
  | ChangeOrderClient value =>
      if String.eqb value "add_new"
      then setNewOrder (fun _ => withClientName "" (newOrder st))
             (setShowAddClientInput true st)
      else setNewOrder (fun _ => withClientName value (newOrder st))
             (setShowAddClientInput false st)
  | ChangeOrderPrice value => setNewOrder (fun _ => withPrice value (newOrder st)) st
  | ChangePaymentMethod value =>
      setNewOrder (fun _ => withPaymentMethod value (newOrder st)) st
  | ChangeOrderPaid value => setOrderPaid value st
  | ClickSaveOrder now => fst (handleSaveOrder today now st)
  | ClickEditOrder i => handleEditOrder i st
  | ClickDeleteOrder i confirmed => handleDeleteOrder today i confirmed st
  | ClickCancelEditOrder => handleCancelEditOrder today st
  | ChangeNewClientName value => setNewClientName value st
  | ClickAddClient now => fst (handleAddClient now st)
  | ClickRemoveClient i confirmed => handleRemoveClient i confirmed st
  | ChangeInvoiceClient value => setSelectedClientForInvoice value st
  | ChangeInvoiceMonth value => setSelectedMonthForInvoice value st
  end.

Definition run (today : string) (st : AppState) (evs : list Event) : AppState :=
  fold_left (step today) evs st.

(** ** The statements of the specification, in its own words *)

(** The date starts with the month: some rest follows the month string. *)
Definition inMonth (month : string) (o : Order) : Prop :=
  exists rest, date o = month +:+ rest.

(** The orders of an invoice: the client's orders of the month. *)
Definition onInvoice (client month : string) (o : Order) : Prop :=
  clientName o = client /\ inMonth month o.

(** The orders that count towards the unpaid total. *)
Definition unpaidFor (client month : string) (o : Order) : Prop :=
  clientName o = client /\ inMonth month o
  /\ paymentMethod o = Postpaid /\ paid o = false.

(** Sum, from the left and starting at zero, of [f] over a list. *)
Definition sumOver {A : Type} (f : A -> num) (l : list A) : num :=
  foldl (fun acc x => num_add acc (f x)) num_zero l.

(** A client whose name is [n] up to case. *)
Definition sameNameIgnoringCase (n : string) (c : Client) : Prop :=
  toLowerCase (name c) = toLowerCase n.

(** The draft passes the validation of the save. *)
Definition orderValid (d : OrderDraft) : Prop :=
  draft_date d <> "" /\ draft_clientName d <> "" /\ draft_vehicle d <> ""
  /\ num_le (draft_price d) num_zero = false.

End Ledger.

(** ** Expenses

    The expense handlers read and write three cells of their own
    ([expenses], [newExpense], [editingExpenseId]); they are modelled on a
    state record that holds just these. *)

Inductive ExpenseType := Diesel | Maintenance | SpareParts | Salary | Other.

Section Expenses.
Context {R : Runtime}.

(** [interface Expense]. *)
Record Expense := {
  expense_id : string;
  expense_date : string;
  plateNumber : string;
  expense_type : ExpenseType;
  expense_cost : num;
  description : string;
}.

(** [Omit<Expense, 'id'>], the draft of the expense form. *)
Record ExpenseDraft := {
  edraft_date : string;
  edraft_plateNumber : string;
  edraft_type : ExpenseType;
  edraft_cost : num;
  edraft_description : string;
}.

(** [{ ...draft, id: i }]. *)
Definition spreadExpense (draft : ExpenseDraft) (i : string) : Expense :=
  {| expense_id := i;
     expense_date := edraft_date draft;
     plateNumber := edraft_plateNumber draft;
     expense_type := edraft_type draft;
     expense_cost := edraft_cost draft;
     description := edraft_description draft |}.

(** [defaultNewExpenseState]. *)
Definition defaultNewExpenseState (today : string) : ExpenseDraft :=
  {| edraft_date := today;
     edraft_plateNumber := "";
     edraft_type := Diesel;
     edraft_cost := num_zero;
     edraft_description := "" |}.

Record ExpenseState := {
  expenses : list Expense;
  newExpense : ExpenseDraft;
  editingExpenseId : option string;
}.

Definition setExpenses (f : list Expense -> list Expense) (s : ExpenseState)
  : ExpenseState :=
  {| expenses := f (expenses s); newExpense := newExpense s;
     editingExpenseId := editingExpenseId s |}.

Definition setNewExpense (d : ExpenseDraft) (s : ExpenseState) : ExpenseState :=
  {| expenses := expenses s; newExpense := d;
     editingExpenseId := editingExpenseId s |}.

Definition setEditingExpenseId (e : option string) (s : ExpenseState)
  : ExpenseState :=
  {| expenses := expenses s; newExpense := newExpense s;
     editingExpenseId := e |}.

Definition expenseAlert : string :=
  "Please fill in all required expense fields (Date, Plate Number, Cost).".

(** The guard of [handleSaveExpense]:
    [!newExpense.date || !newExpense.plateNumber || newExpense.cost <= 0]. *)
Definition expenseInvalid (d : ExpenseDraft) : bool :=
  falsy (edraft_date d) || falsy (edraft_plateNumber d)
  || num_le (edraft_cost d) num_zero.

(** [handleSaveExpense]. *)
Definition handleSaveExpense (today : string) (now : N) (st : ExpenseState)
  : ExpenseState * Outcome :=
  if expenseInvalid (newExpense st) then (st, Alert expenseAlert)
  else
    let s1 :=
      match truthyId (editingExpenseId st) with
      | Some editing =>
          setEditingExpenseId None
            (setExpenses (fun prev =>
               List.map (fun expense =>
                 if String.eqb (expense_id expense) editing
                 then spreadExpense (newExpense st) editing
                 else expense) prev) st)
      | None =>
          let expenseToAdd := spreadExpense (newExpense st) (pretty now) in
          setExpenses (fun prev => prev ++ [expenseToAdd]) st
      end in
    (setNewExpense (defaultNewExpenseState today) s1, Done).

(** [handleEditExpense] (the scrolling of the form is not modelled). *)
Definition handleEditExpense (i : string) (st : ExpenseState) : ExpenseState :=
  match List.find (fun expense => String.eqb (expense_id expense) i)
          (expenses st) with
  | Some expenseToEdit =>
      setEditingExpenseId (Some i)
        (setNewExpense
           {| edraft_date := expense_date expenseToEdit;
              edraft_plateNumber := plateNumber expenseToEdit;
              edraft_type := expense_type expenseToEdit;
              edraft_cost := expense_cost expenseToEdit;
              edraft_description := description expenseToEdit |} st)
  | None => st
  end.

(** [handleDeleteExpense]; [confirmed] is the answer to [confirm]. *)
Definition handleDeleteExpense (today : string) (i : string) (confirmed : bool)
  (st : ExpenseState) : ExpenseState :=
  if confirmed then
    let s1 :=
      setExpenses (fun prev =>
        List.filter (fun expense => negb (String.eqb (expense_id expense) i))
          prev) st in
    if isEditing (editingExpenseId st) i then
      setNewExpense (defaultNewExpenseState today) (setEditingExpenseId None s1)
    else s1
  else st.

Definition handleCancelEditExpense (today : string) (st : ExpenseState)
  : ExpenseState :=
  setNewExpense (defaultNewExpenseState today) (setEditingExpenseId None st).

(** The draft passes the validation of the expense save. *)
Definition expenseValid (d : ExpenseDraft) : Prop :=
  edraft_date d <> "" /\ edraft_plateNumber d <> ""
  /\ num_le (edraft_cost d) num_zero = false.

End Expenses.

(** ** Invariants of the order and client collections *)

Section Invariants.
Context {R : Runtime}.

(** A stored order meets the rule that the save enforces on the draft. *)
Definition orderMeetsRule (o : Order) : Prop :=
  date o <> "" /\ clientName o <> "" /\ vehicle o <> ""
  /\ num_le (price o) num_zero = false.

(** The order being edited, if any, is an order of the collection. *)
Definition editingExists (st : AppState) : Prop :=
  forall i, editingOrderId st = Some i ->
    exists o, o ∈ orders st /\ order_id o = i.

(** No two clients share a name up to case. *)
Definition namesUnique (cs : list Client) : Prop :=
  NoDup (List.map (fun c => toLowerCase (name c)) cs).

(** The string names one of the clients. *)
Definition namesClient (n : string) (cs : list Client) : Prop :=
  exists c, c ∈ cs /\ name c = n.

(** The events that can change the order collection. *)
Definition touchesOrders (ev : Event) : bool :=
  match ev with
  | ClickSaveOrder _ | ClickDeleteOrder _ _ => true
  | _ => false
  end.

(** The events that can change the client collection. *)
Definition touchesClients (ev : Event) : bool :=
  match ev with
  | ClickAddClient _ | ClickRemoveClient _ _ => true
  | _ => false
  end.

(** The component once its mount effect has run on what was stored. *)
Definition mounted (today thisMonth : string) (storedOrders : option (list Order))
  (storedClients : option (list Client)) : AppState :=
  mount storedOrders storedClients (initialState today thisMonth).

End Invariants.

(** ** A concrete runtime: integer amounts and ASCII strings *)

Definition isAsciiSpace (c : ascii) : bool :=
  let n := nat_of_ascii c in
  ((9 <=? n) && (n <=? 13) || (n =? 32))%nat.

Fixpoint trimStart (s : string) : string :=
  match s with
  | EmptyString => EmptyString
  | String c rest => if isAsciiSpace c then trimStart rest else s
  end.

Fixpoint trimEnd (s : string) : string :=
  match s with
  | EmptyString => EmptyString
  | String c rest =>
      match trimEnd rest with
      | EmptyString => if isAsciiSpace c then EmptyString else String c EmptyString
      | kept => String c kept
      end
  end.

Definition asciiTrim (s : string) : string := trimEnd (trimStart s).

Definition asciiLower (c : ascii) : ascii :=
  let n := nat_of_ascii c in
  if ((65 <=? n) && (n <=? 90))%nat then ascii_of_nat (n + 32) else c.

Fixpoint asciiToLowerCase (s : string) : string :=
  match s with
  | EmptyString => EmptyString
  | String c rest => String (asciiLower c) (asciiToLowerCase rest)
  end.

Definition ZRuntime : Runtime :=
  {| num := Z;
     num_zero := 0%Z;
     num_add := Z.add;
     num_le := Z.leb;
     trim := asciiTrim;
     toLowerCase := asciiToLowerCase |}.

(** ** Sample data on the concrete runtime *)

Section Samples.
#[local] Existing Instance ZRuntime.

Definition acmeOrder (i day : string) (amount : Z) (method : PaymentMethod)
  (isPaid : bool) : Order :=
  {| order_id := i; date := day; vehicle := "Truck A"; clientName := "Acme";
     orderType := "Delivery"; location := "City Center"; cost := 0%Z;
     price := amount; paymentMethod := method; paid := isPaid |}.

(** The two orders of the scenario of the specification. *)
Definition acmeOrders : list Order :=
  [ acmeOrder "1" "2024-05-10" 100 Postpaid false;
    acmeOrder "2" "2024-05-20" 50 Cash true ].

(** Orders entered out of date order, one of them of another month. *)
Definition unsortedOrders : list Order :=
  [ acmeOrder "1" "2024-05-20" 50 Cash true;
    acmeOrder "2" "2024-06-01" 70 Postpaid false;
    acmeOrder "3" "2024-05-10" 100 Postpaid false ].

Definition sampleDraft : OrderDraft :=
  {| draft_date := "2024-05-10"; draft_vehicle := "Truck A";
     draft_clientName := "Omar Shareif"; draft_orderType := "Delivery";
     draft_location := "City Center"; draft_cost := 40%Z; draft_price := 100%Z;
     draft_paymentMethod := Postpaid |}.

(** A state right after the mount without stored data. *)
Definition mountedState : AppState :=
  mount None None (initialState "2024-05-10" "2024-05").

(** One order saved at clock reading 1000, and a filled-in draft. *)
Definition oneOrderState : AppState :=
  setNewOrder (fun _ => sampleDraft)
    (setOrders (fun _ => [spreadOrder sampleDraft "1000" true]) mountedState).

(** The same, with the saved order being edited. *)
Definition editingState : AppState :=
  setEditingOrderId (Some "1000") oneOrderState.

(** A client list holding a lower-case name, and its capitalised form typed
    into the new-client input. *)
Definition omarState : AppState :=
  setNewClientName "  Omar "
    (setClients (fun _ => [ {| client_id := "7"; name := "omar" |} ])
       mountedState).

Definition invoiceState : AppState :=
  setSelectedClientForInvoice "Acme" (setOrders (fun _ => acmeOrders) mountedState).

(** Removing the first predefined client, saving one order, and filling in
    the form again. *)
Definition removeThenSave : list Event :=
  [ ClickRemoveClient "1" true;
    ChangeOrderVehicle "Truck A"; ChangeOrderPrice 100%Z; ClickSaveOrder 1000;
    ChangeOrderVehicle "Truck B"; ChangeOrderPrice 50%Z ].

Definition beforeSecondSave : AppState :=
  run "2024-05-10" mountedState removeThenSave.

End Samples.

Section ExpenseSamples.
#[local] Existing Instance ZRuntime.

Definition dieselDraft : ExpenseDraft :=
  {| edraft_date := "2024-05-12"; edraft_plateNumber := "KH-1234";
     edraft_type := Diesel; edraft_cost := 60%Z;
     edraft_description := "Fuel" |}.

(** One expense saved at clock reading 1000, and a filled-in draft. *)
Definition oneExpenseState : ExpenseState :=
  {| expenses := [spreadExpense dieselDraft "1000"];
     newExpense := dieselDraft;
     editingExpenseId := None |}.

(** No expense yet and the untouched form. *)
Definition emptyExpenseState : ExpenseState :=
  {| expenses := [];
     newExpense := defaultNewExpenseState "2024-05-12";
     editingExpenseId := None |}.

(** The mounted component with a new client name typed in. *)
Definition typingState : AppState := setNewClientName " Zed Co " mountedState.

(** That client added at clock reading 1000, and another name typed in. *)
Definition secondTypingState : AppState :=
  setNewClientName "Yan" (fst (handleAddClient 1000 typingState)).

End ExpenseSamples.

(** ** Strings and the boolean tests of the handlers *)

Lemma falsy_true (s : string) : falsy s = true <-> s = "".
Proof. destruct s; simpl; split; congruence. Qed.

Lemma falsy_false (s : string) : falsy s = false <-> s <> "".
Proof. destruct s; simpl; split; congruence. Qed.

Lemma append_String (a : ascii) (p rest : string) :
  String a p +:+ rest = String a (p +:+ rest).
Proof. reflexivity. Qed.

Lemma prefix_append (p s : string) :
  String.prefix p s = true <-> exists rest, s = p +:+ rest.
Proof.
  revert s. induction p as [|a p IH]; intros s.
  - split; [exists s; reflexivity | intros _; destruct s; reflexivity].
  - destruct s as [|b s].
    + split; [discriminate | intros [rest Hrest]; discriminate].
    + change (String.prefix (String a p) (String b s))
        with (if ascii_dec a b then String.prefix p s else false).
      destruct (ascii_dec a b) as [->|Hab].
      * rewrite IH. split; intros [rest Hrest]; exists rest.
        -- rewrite append_String. congruence.
        -- rewrite append_String in Hrest. congruence.
      * split; [discriminate|].
        intros [rest Hrest]. rewrite append_String in Hrest. congruence.
Qed.

Lemma PaymentMethod_eqb_eq (a b : PaymentMethod) :
  PaymentMethod_eqb a b = true <-> a = b.
Proof. destruct a, b; simpl; split; congruence. Qed.

Section LedgerFacts.
Context {R : Runtime}.

Lemma startsWith_inMonth (month : string) (o : Order) :
  startsWith (date o) month = true <-> inMonth month o.
Proof. unfold startsWith, inMonth. apply prefix_append. Qed.

#[local] Instance inMonth_dec month o : Decision (inMonth month o).
Proof.
  destruct (startsWith (date o) month) eqn:E.
  - left. by apply startsWith_inMonth.
  - right. intros H. apply startsWith_inMonth in H. congruence.
Defined.

#[local] Instance PaymentMethod_eq_dec : EqDecision PaymentMethod.
Proof. solve_decision. Defined.

#[local] Instance onInvoice_dec client month o : Decision (onInvoice client month o).
Proof. unfold onInvoice. apply _. Defined.

#[local] Instance unpaidFor_dec client month o : Decision (unpaidFor client month o).
Proof. unfold unpaidFor. apply _. Defined.

Lemma onInvoice_test client month o :
  String.eqb (clientName o) client && startsWith (date o) month = true
  <-> onInvoice client month o.
Proof.
  unfold onInvoice.
  rewrite andb_true_iff, String.eqb_eq, startsWith_inMonth. tauto.
Qed.

Lemma unpaidFor_test client month o :
  String.eqb (clientName o) client && startsWith (date o) month
  && PaymentMethod_eqb (paymentMethod o) Postpaid && negb (paid o) = true
  <-> unpaidFor client month o.
Proof.
  unfold unpaidFor.
  rewrite !andb_true_iff, String.eqb_eq, startsWith_inMonth,
    PaymentMethod_eqb_eq, negb_true_iff. tauto.
Qed.

(** A boolean [Array.prototype.filter] keeps what the decided property keeps. *)
Lemma filter_test {A : Type} (test : A -> bool) (P : A -> Prop)
  `{!forall x, Decision (P x)} (l : list A) :
  (forall x, test x = true <-> P x) ->
  List.filter test l = filter P l.
Proof.
  intros Htest. induction l as [|x l IH]; [done|].
  simpl. rewrite filter_cons, IH.
  destruct (test x) eqn:E; destruct (decide (P x)) as [HP|HP]; try done.
  - apply Htest in E. contradiction.
  - apply Htest in HP. congruence.
Qed.

Lemma fold_left_foldl {A B : Type} (f : A -> B -> A) (l : list B) (a : A) :
  fold_left f l a = foldl f a l.
Proof. revert a. induction l as [|x l IH]; intros a; simpl; [done | apply IH]. Qed.

(** ** Financial calculator *)

(** C1: the unpaid total of a client and month is the sum of the prices of
    exactly the orders of that client whose date starts with the month, that
    are Postpaid and that are not paid. *)
Theorem totalUnpaidAmount_spec (orders : list Order) (client month : string) :
  totalUnpaidAmount orders client month
  = sumOver price (filter (unpaidFor client month) orders).
Proof.
  unfold totalUnpaidAmount, sumOver.
  rewrite (filter_test _ (unpaidFor client month)) by apply unpaidFor_test.
  apply fold_left_foldl.
Qed.

(** The selection of C1, order by order. *)
Lemma unpaid_selection (orders : list Order) (client month : string) (o : Order) :
  o ∈ filter (unpaidFor client month) orders
  <-> o ∈ orders /\ clientName o = client /\ startsWith (date o) month = true
      /\ paymentMethod o = Postpaid /\ paid o = false.
Proof.
  rewrite list_elem_of_filter. unfold unpaidFor.
  rewrite startsWith_inMonth. tauto.
Qed.

(** C2: the balance of an order is its price when the order is Postpaid and
    not paid, and zero in every other case; so it is zero for a Cash order
    whatever its paid flag, and, for an order with a price other than zero,
    it is the price exactly when the order is Postpaid and not paid. *)
Theorem calculateBalance_spec (o : Order) :
  calculateBalance o
  = (if decide (paymentMethod o = Postpaid /\ paid o = false)
     then price o else num_zero)
  /\ (paymentMethod o = Cash -> calculateBalance o = num_zero)
  /\ (price o <> num_zero ->
      (calculateBalance o = price o
       <-> paymentMethod o = Postpaid /\ paid o = false)).
Proof.
  unfold calculateBalance.
  destruct (decide (paymentMethod o = Postpaid /\ paid o = false)) as [[Hm Hp]|Hn].
  - rewrite Hm, Hp. simpl. intuition congruence.
  - destruct (paymentMethod o) eqn:Hm, (paid o) eqn:Hp; simpl;
      intuition congruence.
Qed.

(** The price sum over the unpaid selection and the balance sum over the
    invoice selection, from any starting amount. *)
Lemma unpaid_fold_balance_fold (orders : list Order) (client month : string)
  (start : num) :
  (forall x, num_add x num_zero = x) ->
  fold_left (fun sum order => num_add sum (price order))
    (List.filter (fun order =>
       String.eqb (clientName order) client
       && startsWith (date order) month
       && PaymentMethod_eqb (paymentMethod order) Postpaid
       && negb (paid order)) orders) start
  = fold_left (fun sum order => num_add sum (calculateBalance order))
      (filteredOrders orders client month) start.
Proof.
  intros Hzero. unfold filteredOrders.
  revert start. induction orders as [|o orders IH]; intros start; [done|].
  simpl.
  destruct (String.eqb (clientName o) client && startsWith (date o) month);
    simpl; [|apply IH].
  unfold calculateBalance at 2.
  destruct (PaymentMethod_eqb (paymentMethod o) Postpaid && negb (paid o));
    simpl.
  - apply IH.
  - rewrite Hzero. apply IH.
Qed.

(** C10: given that adding zero leaves an amount as it is, the unpaid total
    of a client and month is the sum of the balances of the client's orders
    of that month. *)
Theorem totalUnpaidAmount_sum_of_balances (orders : list Order)
  (client month : string) :
  (forall x, num_add x num_zero = x) ->
  totalUnpaidAmount orders client month
  = sumOver calculateBalance (filteredOrders orders client month).
Proof.
  intros Hzero. unfold totalUnpaidAmount, sumOver.
  rewrite <- fold_left_foldl. by apply unpaid_fold_balance_fold.
Qed.

(** ** Invoice assembly *)

Lemma filteredOrders_filter (orders : list Order) (client month : string) :
  filteredOrders orders client month = filter (onInvoice client month) orders.
Proof. unfold filteredOrders. apply filter_test. apply onInvoice_test. Qed.

Lemma invoiceRows_orders (orders : list Order) (client month : string) :
  List.map fst (invoiceRows orders client month)
  = filteredOrders orders client month.
Proof.
  unfold invoiceRows, filteredOrders.
  rewrite List.map_map. simpl. apply List.map_id.
Qed.

(** C5: the orders of an invoice, in the handler and in the invoice table,
    are exactly the orders whose client is the selected one and whose date
    string starts with the selected month string, and they come in the order
    they have in the collection. *)
Theorem invoice_selection (orders : list Order) (client month : string) :
  List.map fst (invoiceRows orders client month)
    = filter (onInvoice client month) orders
  /\ filteredOrders orders client month
    = filter (onInvoice client month) orders
  /\ (forall o, o ∈ filteredOrders orders client month
        <-> o ∈ orders /\ clientName o = client
            /\ startsWith (date o) month = true)
  /\ filteredOrders orders client month `sublist_of` orders.
Proof.
  rewrite invoiceRows_orders, filteredOrders_filter.
  split; [done|]. split; [done|]. split.
  - intros o. rewrite list_elem_of_filter. unfold onInvoice.
    rewrite startsWith_inMonth. tauto.
  - apply sublist_filter.
Qed.

Lemma length_zero_nil {A : Type} (l : list A) :
  (length l =? 0)%nat = true <-> l = [].
Proof. destruct l; simpl; split; congruence. Qed.

(** C6: generating the invoice reports an alert, and saves no document,
    exactly when no client is selected, no month is selected, or no order is
    on the invoice of the selected client and month, whatever is shown at
    the later capture; the handler leaves the state as it was. *)
Theorem generateInvoicePdf_no_data (st : AppState) (shown : option AppState) :
  fst (generateInvoicePdf st shown) = st
  /\ ((exists message, snd (generateInvoicePdf st shown) = InvoiceAlert message)
      <-> selectedClientForInvoice st = ""
          \/ selectedMonthForInvoice st = ""
          \/ filter (onInvoice (selectedClientForInvoice st)
                       (selectedMonthForInvoice st)) (orders st) = []).
Proof.
  unfold generateInvoicePdf. rewrite <- filteredOrders_filter.
  destruct (falsy (selectedClientForInvoice st)) eqn:Hc; simpl.
  { apply falsy_true in Hc. split; [done|]. split; eauto. }
  destruct (falsy (selectedMonthForInvoice st)) eqn:Hm; simpl.
  { apply falsy_true in Hm. split; [done|]. split; eauto. }
  apply falsy_false in Hc, Hm.
  destruct (length _ =? 0)%nat eqn:Hlen; simpl.
  - split; [done|]. apply length_zero_nil in Hlen. split; eauto.
  - split; [by destruct shown|].
    split; [intros [message Hmsg]; destruct shown; discriminate|].
    intros [H|[H|H]]; [done | done |].
    apply length_zero_nil in H. congruence.
Qed.

(** ** Saving an order *)

Lemma orderInvalid_true (d : OrderDraft) :
  orderInvalid d = true
  <-> draft_date d = "" \/ draft_clientName d = "" \/ draft_vehicle d = ""
      \/ num_le (draft_price d) num_zero = true.
Proof.
  unfold orderInvalid. rewrite !orb_true_iff, !falsy_true. tauto.
Qed.

Lemma orderInvalid_false (d : OrderDraft) :
  orderInvalid d = false <-> orderValid d.
Proof.
  unfold orderInvalid, orderValid.
  rewrite !orb_false_iff, !falsy_false. tauto.
Qed.

(** C4: a save whose draft has a price at most zero, or an empty date, client
    name or vehicle, is answered by the validation alert and changes nothing:
    the whole state, and so the order collection, is as before. *)
Theorem handleSaveOrder_rejects (today : string) (now : N) (st : AppState) :
  draft_date (newOrder st) = "" \/ draft_clientName (newOrder st) = ""
  \/ draft_vehicle (newOrder st) = ""
  \/ num_le (draft_price (newOrder st)) num_zero = true ->
  handleSaveOrder today now st = (st, Alert orderAlert)
  /\ orders (fst (handleSaveOrder today now st)) = orders st.
Proof.
  intros Hbad. apply orderInvalid_true in Hbad.
  unfold handleSaveOrder. by rewrite Hbad.
Qed.

Lemma lookup_map {A B : Type} (f : A -> B) (l : list A) (i : nat) :
  List.map f l !! i = f <$> (l !! i).
Proof.
  revert i. induction l as [|x l IH]; intros [|i]; simpl; first [done | apply IH].
Qed.

Lemma truthyId_Some (e : option string) (i : string) :
  truthyId e = Some i <-> e = Some i /\ i <> "".
Proof.
  destruct e as [j|]; simpl.
  - destruct (falsy j) eqn:E.
    + apply falsy_true in E. split; [done|]. intros [[= ->] H]. done.
    + apply falsy_false in E. split; [intros [= ->]; done|]. by intros [[= ->] _].
  - split; [done | by intros [? _]].
Qed.

Lemma truthyId_None (e : option string) :
  truthyId e = None <-> e = None \/ e = Some "".
Proof.
  destruct e as [j|]; simpl.
  - destruct (falsy j) eqn:E.
    + apply falsy_true in E. subst. split; eauto.
    + apply falsy_false in E. split; [done|]. intros [H|H]; congruence.
  - split; eauto.
Qed.

(** Ids that are the decimal strings of earlier clock readings differ from
    the id made from the current reading. *)
Lemma earlier_ids_differ (now : N) (os : list Order) :
  (forall o, o ∈ os -> exists t, order_id o = pretty t /\ (t < now)%N) ->
  forall o, o ∈ os -> order_id o <> pretty now.
Proof.
  intros Hearlier o Ho Heq.
  destruct (Hearlier o Ho) as (t & Ht & Hlt).
  rewrite Ht in Heq. apply (inj pretty) in Heq. lia.
Qed.

(** C3, as the code has it: a save that passes validation reports no alert;
    with an editing id set, every order carrying that id is replaced, at its
    position, by the draft with that id and the paid flag of the form, and
    every other order stays as and where it is; with no editing id, the
    draft is appended at the end under an id that is the decimal string of
    the clock reading, which differs from every existing id when those are
    the decimal strings of earlier readings. *)
Theorem handleSaveOrder_saves (today : string) (now : N) (st : AppState) :
  orderValid (newOrder st) ->
  snd (handleSaveOrder today now st) = Done
  /\ (forall editing, editingOrderId st = Some editing -> editing <> "" ->
        length (orders (fst (handleSaveOrder today now st)))
          = length (orders st)
        /\ forall i o, orders st !! i = Some o ->
             orders (fst (handleSaveOrder today now st)) !! i
             = Some (if decide (order_id o = editing)
                     then spreadOrder (newOrder st) editing (orderPaid st)
                     else o))
  /\ (editingOrderId st = None \/ editingOrderId st = Some "" ->
        orders (fst (handleSaveOrder today now st))
          = orders st
              ++ [spreadOrder (newOrder st) (pretty now) (orderPaid st)]
        /\ ((forall o, o ∈ orders st ->
               exists t, order_id o = pretty t /\ (t < now)%N) ->
            forall o, o ∈ orders st -> order_id o <> pretty now)).
Proof.
  intros Hvalid. apply orderInvalid_false in Hvalid.
  unfold handleSaveOrder. rewrite Hvalid.
  split; [done|]. split.
  - intros editing He Hne.
    assert (truthyId (editingOrderId st) = Some editing) as ->
      by (by apply truthyId_Some).
    simpl. split; [apply List.length_map|].
    intros i o Hi. rewrite lookup_map, Hi. simpl. f_equal.
    destruct (String.eqb_spec (order_id o) editing); case_decide; done.
  - intros Hnone. apply truthyId_None in Hnone. rewrite Hnone. simpl.
    split; [done | apply earlier_ids_differ].
Qed.

(** What a save that creates an order stores as its client: the client name
    of the draft, whatever the client collection holds. *)
Lemma handleSaveOrder_new_client (today : string) (now : N) (st : AppState) :
  orderValid (newOrder st) ->
  editingOrderId st = None ->
  exists o, orders (fst (handleSaveOrder today now st)) = orders st ++ [o]
    /\ clientName o = draft_clientName (newOrder st)
    /\ clientName o <> "".
Proof.
  intros Hvalid Hnone. pose proof Hvalid as (_ & Hclient & _).
  apply orderInvalid_false in Hvalid.
  unfold handleSaveOrder. rewrite Hvalid, Hnone. simpl. eauto.
Qed.

(** ** Clients *)

Lemma client_filter_test (i : string) (cs : list Client) :
  List.filter (fun c => negb (String.eqb (client_id c) i)) cs
  = filter (fun c => client_id c <> i) cs.
Proof.
  apply filter_test. intros c.
  rewrite negb_true_iff. destruct (String.eqb_spec (client_id c) i); split; done.
Qed.

(** C7: removing a client keeps, in their order, the clients with another id
    (all of them when the removal is not confirmed) and leaves the order
    collection as it is, the orders of the removed client included. *)
Theorem handleRemoveClient_frame (i : string) (confirmed : bool) (st : AppState) :
  orders (handleRemoveClient i confirmed st) = orders st
  /\ clients (handleRemoveClient i confirmed st)
     = (if confirmed then filter (fun c => client_id c <> i) (clients st)
        else clients st).
Proof.
  unfold handleRemoveClient. rewrite <- client_filter_test.
  destruct confirmed; [|done].
  destruct (isNameOf (selectedClientForInvoice st) _),
    (isNameOf (draft_clientName (newOrder st)) _); done.
Qed.

Lemma duplicate_test (n : string) (cs : list Client) :
  existsb (fun c => String.eqb (toLowerCase (name c)) (toLowerCase n)) cs = true
  <-> Exists (sameNameIgnoringCase n) cs.
Proof.
  rewrite existsb_exists, Exists_exists. unfold sameNameIgnoringCase.
  split; intros (c & Hc & Heq); exists c.
  - apply list_elem_of_In in Hc. by apply String.eqb_eq in Heq.
  - apply list_elem_of_In in Hc. split; [done | by apply String.eqb_eq].
Qed.

(** Client ids that are the decimal strings of earlier clock readings differ
    from the id made from the current reading. *)
Lemma earlier_client_ids_differ (now : N) (cs : list Client) :
  (forall c, c ∈ cs -> exists t, client_id c = pretty t /\ (t < now)%N) ->
  forall c, c ∈ cs -> client_id c <> pretty now.
Proof.
  intros Hearlier c Hc Heq.
  destruct (Hearlier c Hc) as (t & Ht & Hlt).
  rewrite Ht in Heq. apply (inj pretty) in Heq. lia.
Qed.

(** C8, as the code has it: adding a client works on the trimmed name.  An
    empty trimmed name is answered by the empty-name alert; otherwise a
    client with the same name up to case is answered by the duplicate-name
    alert; every alert leaves the state, and so the client collection, as it
    was.  Otherwise a client with the trimmed name is appended under an id
    that is the decimal string of the clock reading, which differs from
    every existing id when those are the decimal strings of earlier
    readings. *)
Theorem handleAddClient_spec (now : N) (st : AppState) :
  (trim (newClientName st) = "" ->
   handleAddClient now st = (st, Alert emptyNameAlert))
  /\ (trim (newClientName st) <> "" ->
      Exists (sameNameIgnoringCase (trim (newClientName st))) (clients st) ->
      handleAddClient now st = (st, Alert duplicateNameAlert))
  /\ (forall message, snd (handleAddClient now st) = Alert message ->
      fst (handleAddClient now st) = st)
  /\ (trim (newClientName st) <> "" ->
      ~ Exists (sameNameIgnoringCase (trim (newClientName st))) (clients st) ->
      snd (handleAddClient now st) = Done
      /\ clients (fst (handleAddClient now st))
         = clients st
             ++ [{| client_id := pretty now;
                    name := trim (newClientName st) |}]
      /\ ((forall c, c ∈ clients st ->
             exists t, client_id c = pretty t /\ (t < now)%N) ->
          forall c, c ∈ clients st -> client_id c <> pretty now)).
Proof.
  unfold handleAddClient.
  destruct (String.eqb_spec (trim (newClientName st)) "") as [He|He].
  { repeat split; done. }
  destruct (existsb _ (clients st)) eqn:Hdup.
  - apply duplicate_test in Hdup. repeat split; done.
  - assert (~ Exists (sameNameIgnoringCase (trim (newClientName st)))
              (clients st)) as Hnone.
    { intros H. apply duplicate_test in H. congruence. }
    split; [done|]. split; [done|]. split.
    + intros message. simpl. discriminate.
    + intros _ _. split; [done|].
      split; [|apply earlier_client_ids_differ].
      destruct ((length (clients st) =? 0)%nat
                || falsy (selectedClientForInvoice st)); done.
Qed.

End LedgerFacts.

(** ** The handlers on the sample data *)

Section Checks.
#[local] Existing Instance ZRuntime.

Example pretty_clock : pretty 1000%N = "1000".
Proof. vm_compute. reflexivity. Qed.

Example trim_lower : toLowerCase (trim "  Omar ") = "omar".
Proof. vm_compute. reflexivity. Qed.

(** The scenario of the specification: two line items, 100 unpaid. *)
Example acme_invoice :
  snd (generateInvoicePdf invoiceState (Some invoiceState))
  = InvoiceSaved "Acme_Invoice_2024-05.pdf"
      {| doc_client := "Acme"; doc_month := "2024-05";
         lineItems := [ (acmeOrder "1" "2024-05-10" 100 Postpaid false, 100%Z);
                        (acmeOrder "2" "2024-05-20" 50 Cash true, 0%Z) ];
         totalUnpaid := 100%Z |}.
Proof. vm_compute. reflexivity. Qed.

Example acme_june_no_data :
  generateInvoicePdf (setSelectedMonthForInvoice "2024-06" invoiceState)
    (Some (setSelectedMonthForInvoice "2024-06" invoiceState))
  = (setSelectedMonthForInvoice "2024-06" invoiceState, InvoiceAlert noOrdersAlert).
Proof. vm_compute. reflexivity. Qed.

(** The file is named from the selection at the click, the table is the one
    shown at the capture: a month changed during the wait gives a file named
    for May that holds the empty table of June. *)
Example invoice_shows_state_at_capture :
  snd (generateInvoicePdf invoiceState
         (Some (setSelectedMonthForInvoice "2024-06" invoiceState)))
  = InvoiceSaved "Acme_Invoice_2024-05.pdf"
      {| doc_client := "Acme"; doc_month := "2024-06";
         lineItems := []; totalUnpaid := 0%Z |}.
Proof. vm_compute. reflexivity. Qed.

(** When the invoice element is gone by the capture, nothing is saved. *)
Example invoice_not_captured :
  snd (generateInvoicePdf invoiceState None) = InvoiceNotCaptured.
Proof. vm_compute. reflexivity. Qed.

(** The rows keep the order of entry; they are not sorted by date. *)
Example rows_in_entry_order :
  List.map (fun row => date (fst row)) (invoiceRows unsortedOrders "Acme" "2024-05")
  = ["2024-05-20"; "2024-05-10"].
Proof. vm_compute. reflexivity. Qed.

(** The month test is textual: a date written without the leading zero is
    not of the month, and any text after the month string is accepted. *)
Example month_test_is_textual :
  filteredOrders [ acmeOrder "1" "2024-5-10" 10 Cash true;
                   acmeOrder "2" "2024-05xx" 20 Cash true ] "Acme" "2024-05"
  = [ acmeOrder "2" "2024-05xx" 20 Cash true ].
Proof. vm_compute. reflexivity. Qed.

(** The unpaid total and the balance column on the scenario's orders. *)
Lemma totalUnpaidAmount_sum_of_balances_witness :
  (forall x : Z, (x + 0)%Z = x)
  /\ totalUnpaidAmount acmeOrders "Acme" "2024-05"
     = sumOver calculateBalance (filteredOrders acmeOrders "Acme" "2024-05").
Proof.
  split; [exact Z.add_0_r|].
  apply (totalUnpaidAmount_sum_of_balances acmeOrders "Acme" "2024-05").
  simpl. lia.
Defined.

(** A Cash order has no balance, paid or not. *)
Lemma calculateBalance_spec_witness :
  paymentMethod (acmeOrder "2" "2024-05-20" 50 Cash false) = Cash
  /\ calculateBalance (acmeOrder "2" "2024-05-20" 50 Cash false) = 0%Z.
Proof.
  split; [reflexivity|].
  apply (calculateBalance_spec (acmeOrder "2" "2024-05-20" 50 Cash false)).
  reflexivity.
Defined.

(** The default draft, whose price is zero, is rejected. *)
Lemma handleSaveOrder_rejects_witness :
  num_le (draft_price (newOrder mountedState)) num_zero = true
  /\ handleSaveOrder "2024-05-10" 1000 mountedState
     = (mountedState, Alert orderAlert).
Proof.
  split; [reflexivity|].
  apply (handleSaveOrder_rejects "2024-05-10" 1000 mountedState).
  right. right. right. reflexivity.
Defined.

Lemma sampleDraft_valid : orderValid sampleDraft.
Proof. repeat split; discriminate. Qed.

(** Saving the edited order replaces it where it stands. *)
Lemma handleSaveOrder_saves_witness :
  orderValid (newOrder editingState)
  /\ editingOrderId editingState = Some "1000"
  /\ length (orders (fst (handleSaveOrder "2024-05-10" 2000 editingState)))
     = length (orders editingState).
Proof.
  split; [exact sampleDraft_valid|]. split; [reflexivity|].
  destruct (handleSaveOrder_saves "2024-05-10" 2000 editingState
              sampleDraft_valid) as (_ & Hedit & _).
  apply (Hedit "1000"); [reflexivity | discriminate].
Defined.

(** C3, refuted as stated: a save made at a clock reading that an existing
    order already carries as its id appends an order with that same id. *)
Lemma handleSaveOrder_id_clash :
  orderValid (newOrder oneOrderState)
  /\ editingOrderId oneOrderState = None
  /\ exists old new,
       orders (fst (handleSaveOrder "2024-05-10" 1000 oneOrderState))
         = orders oneOrderState ++ [new]
       /\ old ∈ orders oneOrderState
       /\ order_id new = order_id old.
Proof.
  split; [exact sampleDraft_valid|]. split; [reflexivity|].
  exists (spreadOrder sampleDraft "1000" true),
         (spreadOrder sampleDraft "1000" true).
  split; [vm_compute; reflexivity|]. split; [apply list_elem_of_here | reflexivity].
Qed.

(** "Omar" is refused when "omar" is a client. *)
Lemma handleAddClient_spec_witness :
  trim (newClientName omarState) = "Omar"
  /\ handleAddClient 1000 omarState = (omarState, Alert duplicateNameAlert)
  /\ clients (fst (handleAddClient 1000 omarState)) = clients omarState.
Proof.
  assert (handleAddClient 1000 omarState = (omarState, Alert duplicateNameAlert))
    as Hdup.
  { apply (handleAddClient_spec 1000 omarState).
    - vm_compute. discriminate.
    - apply Exists_cons_hd. vm_compute. reflexivity. }
  split; [vm_compute; reflexivity|]. split; [exact Hdup|].
  rewrite Hdup. reflexivity.
Defined.

(** C8, refuted as stated: two clients added at the same clock reading get
    the same id, so the id of the second is not a new one. *)
Lemma handleAddClient_id_clash :
  snd (handleAddClient 1000 typingState) = Done
  /\ snd (handleAddClient 1000 secondTypingState) = Done
  /\ exists old new,
       clients (fst (handleAddClient 1000 secondTypingState))
         = clients secondTypingState ++ [new]
       /\ old ∈ clients secondTypingState
       /\ client_id new = client_id old.
Proof.
  split; [vm_compute; reflexivity|]. split; [vm_compute; reflexivity|].
  exists {| client_id := "1000"; name := "Zed Co" |},
         {| client_id := "1000"; name := "Yan" |}.
  split; [vm_compute; reflexivity|].
  split; [|reflexivity].
  apply list_elem_of_In. vm_compute. do 5 right. left. reflexivity.
Qed.

(** C9, on the state machine: after the first predefined client has been
    removed and one order saved, the form holds the first predefined client
    again; the next save passes validation and stores an order whose client
    name is the name of no client of the collection. *)
Theorem save_names_removed_client :
  draft_clientName (newOrder beforeSecondSave) = "Hassan Bobo"
  /\ orderValid (newOrder beforeSecondSave)
  /\ editingOrderId beforeSecondSave = None
  /\ List.map name (clients beforeSecondSave)
     = ["Omar Shareif"; "Muhi Aldein"; "Khalifa Shareif"; "Mutwali"]
  /\ exists o,
       orders (fst (handleSaveOrder "2024-05-10" 2000 beforeSecondSave))
         = orders beforeSecondSave ++ [o]
       /\ clientName o = "Hassan Bobo"
       /\ Forall (fun c => name c <> clientName o) (clients beforeSecondSave).
Proof.
  split; [vm_compute; reflexivity|].
  split; [vm_compute; repeat split; discriminate|].
  split; [vm_compute; reflexivity|].
  split; [vm_compute; reflexivity|].
  eexists. split; [vm_compute; reflexivity|].
  split; [reflexivity|].
  vm_compute. repeat constructor; discriminate.
Qed.

End Checks.

(** ** Editing and deleting orders *)

Section OrderFacts.
Context {R : Runtime}.

Lemma find_by_id (i : string) (os : list Order) (o : Order) :
  List.find (fun order => String.eqb (order_id order) i) os = Some o ->
  o ∈ os /\ order_id o = i.
Proof.
  intros H. apply List.find_some in H as [Hin Heq].
  split; [by apply list_elem_of_In | by apply String.eqb_eq].
Qed.

Lemma find_by_id_None (i : string) (os : list Order) :
  List.find (fun order => String.eqb (order_id order) i) os = None ->
  forall o, o ∈ os -> order_id o <> i.
Proof.
  intros H o Ho Heq. apply list_elem_of_In in Ho.
  pose proof (List.find_none _ _ H o Ho) as Hne. simpl in Hne.
  apply String.eqb_eq in Heq. congruence.
Qed.

(** In a list without repeated ids an id names one order. *)
Lemma same_id_same_order (os : list Order) (a b : Order) :
  NoDup (List.map order_id os) -> a ∈ os -> b ∈ os ->
  order_id a = order_id b -> a = b.
Proof.
  induction os as [|x os IH]; simpl; intros Hnd Ha Hb Heq.
  - by apply elem_of_nil in Ha.
  - apply NoDup_cons in Hnd as [Hx Hnd].
    apply elem_of_cons in Ha as [->|Ha]; apply elem_of_cons in Hb as [->|Hb].
    + done.
    + exfalso. apply Hx. rewrite Heq. apply list_elem_of_In.
      apply List.in_map. by apply list_elem_of_In.
    + exfalso. apply Hx. rewrite <- Heq. apply list_elem_of_In.
      apply List.in_map. by apply list_elem_of_In.
    + by apply IH.
Qed.

Lemma map_unchanged {A : Type} (f : A -> A) (l : list A) :
  (forall x, x ∈ l -> f x = x) -> List.map f l = l.
Proof.
  induction l as [|x l IH]; intros H; simpl; [done|].
  rewrite H by apply list_elem_of_here.
  rewrite IH; [done|]. intros y Hy. apply H. by apply list_elem_of_further.
Qed.

Lemma filter_unchanged {A : Type} (p : A -> bool) (l : list A) :
  (forall x, x ∈ l -> p x = true) -> List.filter p l = l.
Proof.
  induction l as [|x l IH]; intros H; simpl; [done|].
  rewrite H by apply list_elem_of_here.
  rewrite IH; [done|]. intros y Hy. apply H. by apply list_elem_of_further.
Qed.

(** Loading an order into the form and spreading the form back under the
    order's id gives the order. *)
Lemma spread_loaded (o : Order) :
  spreadOrder
    {| draft_date := date o; draft_vehicle := vehicle o;
       draft_clientName := clientName o; draft_orderType := orderType o;
       draft_location := location o; draft_cost := cost o;
       draft_price := price o; draft_paymentMethod := paymentMethod o |}
    (order_id o) (paid o) = o.
Proof. by destruct o. Qed.

(** X1: with no id repeated among the orders, opening an existing order
    (whose id is not empty) in the form and saving it at once leaves the
    order collection as it was. *)
Theorem edit_then_save_keeps_orders (today : string) (now : N) (i : string)
  (st : AppState) :
  NoDup (List.map order_id (orders st)) ->
  i <> "" ->
  (exists o, o ∈ orders st /\ order_id o = i) ->
  orders (fst (handleSaveOrder today now (handleEditOrder i st))) = orders st.
Proof.
  intros Hnd Hi (o & Ho & Hid). unfold handleEditOrder.
  destruct (List.find _ (orders st)) as [e|] eqn:Hfind.
  2:{ exfalso. by apply (find_by_id_None _ _ Hfind o Ho). }
  apply find_by_id in Hfind as [He Heid].
  unfold handleSaveOrder.
  destruct (orderInvalid _); [done|]. simpl.
  apply falsy_false in Hi. rewrite Hi. simpl.
  apply map_unchanged. intros x Hx.
  destruct (String.eqb_spec (order_id x) i) as [Hxi|]; [|done].
  assert (x = e) as -> by (apply (same_id_same_order (orders st)); congruence).
  rewrite <- Heid. apply spread_loaded.
Qed.

Lemma order_filter_test (i : string) (os : list Order) :
  List.filter (fun order => negb (String.eqb (order_id order) i)) os
  = filter (fun o => order_id o <> i) os.
Proof.
  apply filter_test. intros o.
  rewrite negb_true_iff. destruct (String.eqb_spec (order_id o) i); split; done.
Qed.

(** X2: a confirmed deletion keeps, in their order, exactly the orders with
    another id; it never leaves the form editing the deleted id, and when
    another order (or none) was being edited the form is left as it was. *)
Theorem handleDeleteOrder_removes (today : string) (i : string) (st : AppState) :
  orders (handleDeleteOrder today i true st)
    = filter (fun o => order_id o <> i) (orders st)
  /\ editingOrderId (handleDeleteOrder today i true st) <> Some i
  /\ (editingOrderId st <> Some i ->
      editingOrderId (handleDeleteOrder today i true st) = editingOrderId st
      /\ newOrder (handleDeleteOrder today i true st) = newOrder st
      /\ orderPaid (handleDeleteOrder today i true st) = orderPaid st).
Proof.
  unfold handleDeleteOrder. rewrite <- order_filter_test.
  destruct (editingOrderId st) as [j|] eqn:He; simpl.
  - destruct (String.eqb_spec j i) as [->|Hji]; simpl.
    + split; [done|]. split; [congruence|]. intros H. by destruct H.
    + split; [done|]. split; [congruence|]. done.
  - split; [done|]. split; [congruence|]. done.
Qed.

(** X3: saving a new order under an id that no order carries yet and then
    deleting that id gives back the order collection. *)
Theorem save_then_delete_restores (today : string) (now : N) (st : AppState) :
  orderValid (newOrder st) ->
  editingOrderId st = None ->
  (forall o, o ∈ orders st -> order_id o <> pretty now) ->
  orders (handleDeleteOrder today (pretty now) true
            (fst (handleSaveOrder today now st))) = orders st.
Proof.
  intros Hvalid Hnone Hfresh. apply orderInvalid_false in Hvalid.
  unfold handleSaveOrder. rewrite Hvalid, Hnone. simpl.
  unfold handleDeleteOrder. rewrite Hnone. simpl.
  rewrite List.filter_app. simpl. rewrite String.eqb_refl. simpl.
  rewrite app_nil_r. apply filter_unchanged.
  intros x Hx. apply negb_true_iff.
  destruct (String.eqb_spec (order_id x) (pretty now)); [|done].
  by apply Hfresh in Hx.
Qed.

(** ** What the events keep *)

Lemma handleAddClient_orders (now : N) (st : AppState) :
  orders (fst (handleAddClient now st)) = orders st
  /\ editingOrderId (fst (handleAddClient now st)) = editingOrderId st.
Proof.
  unfold handleAddClient.
  destruct (String.eqb _ ""); [done|].
  destruct (existsb _ _); [done|].
  destruct (_ || _); done.
Qed.

Lemma handleRemoveClient_orders (i : string) (confirmed : bool) (st : AppState) :
  orders (handleRemoveClient i confirmed st) = orders st
  /\ editingOrderId (handleRemoveClient i confirmed st) = editingOrderId st.
Proof.
  unfold handleRemoveClient. destruct confirmed; [|done].
  destruct (isNameOf (selectedClientForInvoice st) _),
    (isNameOf (draft_clientName (newOrder st)) _); done.
Qed.

(** X4: only the save and the deletion of an order can change the order
    collection, and only the addition and the removal of a client can change
    the client collection. *)
Theorem step_frames (today : string) (st : AppState) (ev : Event) :
  (touchesOrders ev = false -> orders (step today st ev) = orders st)
  /\ (touchesClients ev = false -> clients (step today st ev) = clients st).
Proof.
  split; intros Hev; destruct ev; simpl in *; try done.
  - by destruct (String.eqb value "add_new").
  - unfold handleEditOrder. by destruct (List.find _ _).
  - apply handleAddClient_orders.
  - apply handleRemoveClient_orders.
  - by destruct (String.eqb value "add_new").
  - unfold handleSaveOrder. destruct (orderInvalid _); [done|].
    by destruct (truthyId _).
  - unfold handleEditOrder. by destruct (List.find _ _).
  - unfold handleDeleteOrder. destruct confirmed; [|done].
    by destruct (isEditing _ _).
Qed.

Lemma editingExists_step (today : string) (st : AppState) (ev : Event) :
  editingExists st -> editingExists (step today st ev).
Proof.
  intros H. destruct ev; simpl; try exact H.
  - destruct (String.eqb value "add_new"); exact H.
  - unfold handleSaveOrder. destruct (orderInvalid _); [exact H|].
    destruct (truthyId _) eqn:Ht; simpl.
    + intros j Hj. discriminate.
    + intros j Hj. simpl in *. destruct (H j Hj) as (o & Ho & Hid).
      exists o. split; [|done]. apply elem_of_app. by left.
  - unfold handleEditOrder.
    destruct (List.find _ _) as [e|] eqn:Hfind; [|exact H].
    apply find_by_id in Hfind as [He Heid].
    intros j Hj. simpl in *. injection Hj as <-. by exists e.
  - unfold handleDeleteOrder. destruct confirmed; [|exact H].
    destruct (isEditing _ _) eqn:He; simpl.
    + intros j Hj. discriminate.
    + intros j Hj. simpl in *. destruct (H j Hj) as (o & Ho & Hid).
      exists o. split; [|done].
      rewrite order_filter_test. apply list_elem_of_filter. split; [|done].
      rewrite Hj in He. simpl in He. apply String.eqb_neq in He. congruence.
  - intros j Hj. discriminate.
  - intros j Hj. destruct (handleAddClient_orders now st) as [Ho He].
    rewrite He in Hj. rewrite Ho. by apply H.
  - intros j Hj. destruct (handleRemoveClient_orders i confirmed st) as [Ho He].
    rewrite He in Hj. rewrite Ho. by apply H.
Qed.

Lemma run_invariant (P : AppState -> Prop) (today : string) :
  (forall st ev, P st -> P (step today st ev)) ->
  forall evs st, P st -> P (run today st evs).
Proof.
  intros Hstep evs. unfold run.
  induction evs as [|ev evs IH]; intros st Hst; simpl; [done|].
  apply IH. by apply Hstep.
Qed.

Lemma mount_editing (so : option (list Order)) (sc : option (list Client))
  (st : AppState) :
  editingOrderId (mount so sc st) = editingOrderId st
  /\ orders (mount so sc st) = match so with Some os => os | None => orders st end.
Proof.
  unfold mount. destruct so, sc as [[|c cs]|]; done.
Qed.

(** X5: in every state reached from the mounted component, whatever was
    stored and whatever the events, the id being edited is the id of an
    order of the collection. *)
Theorem editing_names_an_order (today thisMonth : string)
  (so : option (list Order)) (sc : option (list Client)) (evs : list Event) :
  editingExists (run today (mount so sc (initialState today thisMonth)) evs).
Proof.
  apply run_invariant; [apply editingExists_step|].
  intros j Hj. destruct (mount_editing so sc (initialState today thisMonth))
    as [He _]. rewrite He in Hj. discriminate.
Qed.

Lemma ordersMeetRule_step (today : string) (st : AppState) (ev : Event) :
  Forall orderMeetsRule (orders st) ->
  Forall orderMeetsRule (orders (step today st ev)).
Proof.
  intros H. destruct (touchesOrders ev) eqn:Hev.
  2:{ by rewrite (proj1 (step_frames today st ev) Hev). }
  destruct ev; try discriminate; simpl.
  - unfold handleSaveOrder. destruct (orderInvalid _) eqn:Hvalid; [done|].
    apply orderInvalid_false in Hvalid.
    destruct (truthyId _); simpl.
    + apply Forall_forall. intros o Ho. apply list_elem_of_In in Ho.
      apply List.in_map_iff in Ho as (x & <- & Hx).
      destruct (String.eqb _ _); [exact Hvalid|].
      rewrite Forall_forall in H. apply H. by apply list_elem_of_In.
    + apply Forall_app. split; [done|]. by apply Forall_singleton.
  - unfold handleDeleteOrder. destruct confirmed; [|done].
    assert (Forall orderMeetsRule
              (List.filter (fun order => negb (String.eqb (order_id order) i))
                 (orders st))) as Hf.
    { rewrite Forall_forall in H. apply Forall_forall. intros o Ho.
      rewrite order_filter_test in Ho.
      apply list_elem_of_filter in Ho as [_ Ho]. by apply H. }
    by destruct (isEditing _ _).
Qed.

(** X6: when the stored orders (if any) meet the rule of the save, a
    non-empty date, client name and vehicle and a price that is not at most
    zero, so does every order of every state reached from the mounted
    component. *)
Theorem saved_orders_meet_rule (today thisMonth : string)
  (so : option (list Order)) (sc : option (list Client)) (evs : list Event) :
  (forall os, so = Some os -> Forall orderMeetsRule os) ->
  Forall orderMeetsRule
    (orders (run today (mount so sc (initialState today thisMonth)) evs)).
Proof.
  intros Hstored.
  apply (run_invariant (fun st => Forall orderMeetsRule (orders st)));
    [apply ordersMeetRule_step|].
  destruct (mount_editing so sc (initialState today thisMonth)) as [_ Ho].
  rewrite Ho. destruct so as [os|]; [by apply Hstored | by apply Forall_nil].
Qed.

(** ** Saving and the invoice *)

Lemma totalUnpaidAmount_snoc (os : list Order) (o : Order)
  (client month : string) :
  (unpaidFor client month o ->
   totalUnpaidAmount (os ++ [o]) client month
   = num_add (totalUnpaidAmount os client month) (price o))
  /\ (~ unpaidFor client month o ->
      totalUnpaidAmount (os ++ [o]) client month
      = totalUnpaidAmount os client month).
Proof.
  unfold totalUnpaidAmount. rewrite List.filter_app, List.fold_left_app. simpl.
  split; intros H.
  - apply unpaidFor_test in H. by rewrite H.
  - destruct (_ && negb (paid o)) eqn:E; [|done].
    apply unpaidFor_test in E. contradiction.
Qed.

(** X7: saving a new order raises the unpaid total of a client and month by
    the price of the draft when the saved order is of that client and month,
    Postpaid and not paid, and leaves that total as it was otherwise. *)
Theorem save_new_order_total (today : string) (now : N) (st : AppState)
  (client month : string) :
  orderValid (newOrder st) ->
  editingOrderId st = None ->
  (unpaidFor client month
     (spreadOrder (newOrder st) (pretty now) (orderPaid st)) ->
   totalUnpaidAmount (orders (fst (handleSaveOrder today now st))) client month
   = num_add (totalUnpaidAmount (orders st) client month)
       (draft_price (newOrder st)))
  /\ (~ unpaidFor client month
          (spreadOrder (newOrder st) (pretty now) (orderPaid st)) ->
      totalUnpaidAmount (orders (fst (handleSaveOrder today now st)))
        client month
      = totalUnpaidAmount (orders st) client month).
Proof.
  intros Hvalid Hnone. apply orderInvalid_false in Hvalid.
  unfold handleSaveOrder. rewrite Hvalid, Hnone. simpl.
  apply totalUnpaidAmount_snoc.
Qed.

(** X8: when an invoice is saved, the selection at the click has neither
    an empty client nor an empty month, has at least one order, and names
    the file; the document is the invoice element of the state shown at the
    capture: every line is an order of that state, for the client and with
    the month prefix selected in it, shown with its balance, and the total
    is its unpaid total; when the state shown is the state at the click, the
    document has at least one line. *)
Theorem generateInvoicePdf_document (st : AppState) (shown : option AppState)
  (fileName : string) (doc : InvoiceDocument) :
  snd (generateInvoicePdf st shown) = InvoiceSaved fileName doc ->
  fileName
    = selectedClientForInvoice st +:+ "_Invoice_"
        +:+ selectedMonthForInvoice st +:+ ".pdf"
  /\ selectedClientForInvoice st <> ""
  /\ selectedMonthForInvoice st <> ""
  /\ filteredOrders (orders st) (selectedClientForInvoice st)
       (selectedMonthForInvoice st) <> []
  /\ (exists later, shown = Some later
        /\ Forall (fun row =>
              fst row ∈ orders later
              /\ clientName (fst row) = selectedClientForInvoice later
              /\ startsWith (date (fst row)) (selectedMonthForInvoice later)
                 = true
              /\ snd row = calculateBalance (fst row)) (lineItems doc)
        /\ List.map fst (lineItems doc)
           = filteredOrders (orders later) (selectedClientForInvoice later)
               (selectedMonthForInvoice later)
        /\ totalUnpaid doc
           = totalUnpaidAmount (orders later) (selectedClientForInvoice later)
               (selectedMonthForInvoice later))
  /\ (shown = Some st -> lineItems doc <> []).
Proof.
  unfold generateInvoicePdf.
  destruct (falsy (selectedClientForInvoice st)) eqn:Hc; simpl; [discriminate|].
  destruct (falsy (selectedMonthForInvoice st)) eqn:Hm; simpl; [discriminate|].
  destruct (length _ =? 0)%nat eqn:Hlen; simpl; [discriminate|].
  destruct shown as [later|]; simpl; [|discriminate].
  intros [= <- <-]. apply falsy_false in Hc, Hm.
  assert (filteredOrders (orders st) (selectedClientForInvoice st)
            (selectedMonthForInvoice st) <> []) as Hsome.
  { intros Hnil. rewrite Hnil in Hlen. discriminate. }
  split; [done|]. split; [done|]. split; [done|]. split; [done|]. split.
  - exists later. split; [done|]. split; [|split; [apply invoiceRows_orders|done]].
    apply Forall_forall. intros row Hrow. apply list_elem_of_In in Hrow.
    simpl in Hrow. unfold invoiceRows in Hrow.
    apply List.in_map_iff in Hrow as (o & <- & Ho).
    apply List.filter_In in Ho as [Ho Htest]. simpl.
    apply andb_true_iff in Htest as [Hcl Hst]. apply String.eqb_eq in Hcl.
    split; [by apply list_elem_of_In | done].
  - intros [= ->]. simpl. intros Hnil. apply Hsome.
    rewrite <- invoiceRows_orders. by rewrite Hnil.
Qed.

End OrderFacts.

(** ** The client collection and the selections *)

Section ClientFacts.
Context {R : Runtime}.

Lemma NoDup_map_filter {A B : Type} (f : A -> B) (p : A -> bool) (l : list A) :
  NoDup (List.map f l) -> NoDup (List.map f (List.filter p l)).
Proof.
  induction l as [|x l IH]; simpl; intros H; [done|].
  apply NoDup_cons in H as [Hx H].
  destruct (p x); simpl; [|by apply IH].
  apply NoDup_cons. split; [|by apply IH].
  intros Hin. apply Hx. apply list_elem_of_In in Hin.
  apply List.in_map_iff in Hin as (y & Hy & Hin).
  apply List.filter_In in Hin as [Hin _].
  apply list_elem_of_In. apply List.in_map_iff. eauto.
Qed.

Lemma namesUnique_add (now : N) (st : AppState) :
  namesUnique (clients st) ->
  namesUnique (clients (fst (handleAddClient now st))).
Proof.
  intros H. unfold handleAddClient.
  destruct (String.eqb _ ""); [done|].
  destruct (existsb _ _) eqn:Hdup; [done|].
  assert (namesUnique
            (clients st ++ [{| client_id := pretty now;
                               name := trim (newClientName st) |}])) as Hnew.
  { unfold namesUnique in *. rewrite List.map_app. simpl.
    apply NoDup_app. split; [done|]. split; [|apply NoDup_singleton].
    intros x Hx Hx'. apply list_elem_of_singleton in Hx'. subst x.
    apply list_elem_of_In in Hx. apply List.in_map_iff in Hx as (c & Hc & Hin).
    assert (existsb (fun c => String.eqb (toLowerCase (name c))
                       (toLowerCase (trim (newClientName st)))) (clients st)
            = true) as Hex.
    { apply existsb_exists. exists c. split; [done|]. by apply String.eqb_eq. }
    congruence. }
  destruct (_ || _); exact Hnew.
Qed.

Lemma namesUnique_remove (i : string) (confirmed : bool) (st : AppState) :
  namesUnique (clients st) ->
  namesUnique (clients (handleRemoveClient i confirmed st)).
Proof.
  intros H. unfold handleRemoveClient. destruct confirmed; [|done].
  assert (namesUnique
            (List.filter (fun c => negb (String.eqb (client_id c) i))
               (clients st))) as Hf by (by apply NoDup_map_filter).
  destruct (isNameOf (selectedClientForInvoice st) _),
    (isNameOf (draft_clientName (newOrder st)) _); exact Hf.
Qed.

(** X9: when no two clients share a name up to case, no sequence of events
    makes two clients share one. *)
Theorem client_names_stay_unique (today : string) (st : AppState)
  (evs : list Event) :
  namesUnique (clients st) -> namesUnique (clients (run today st evs)).
Proof.
  apply (run_invariant (fun s => namesUnique (clients s))).
  clear st evs. intros st ev H.
  destruct (touchesClients ev) eqn:Hev.
  2:{ by rewrite (proj2 (step_frames today st ev) Hev). }
  destruct ev; try discriminate; simpl.
  - by apply namesUnique_add.
  - by apply namesUnique_remove.
Qed.

Lemma or_else_empty (a : string) : or_else a "" = a.
Proof. by destruct a. Qed.

Lemma firstNameOr_names (cs : list Client) :
  namesClient (firstNameOr cs) cs \/ (cs = [] /\ firstNameOr cs = "").
Proof.
  destruct cs as [|c cs]; [by right|]. left. simpl. rewrite or_else_empty.
  exists c. split; [apply list_elem_of_here | done].
Qed.

Lemma find_client (i : string) (cs : list Client) (c : Client) :
  List.find (fun c => String.eqb (client_id c) i) cs = Some c ->
  c ∈ cs /\ client_id c = i.
Proof.
  intros H. apply List.find_some in H as [Hin Heq].
  split; [by apply list_elem_of_In | by apply String.eqb_eq].
Qed.

Lemma same_id_same_client (cs : list Client) (a b : Client) :
  NoDup (List.map client_id cs) -> a ∈ cs -> b ∈ cs ->
  client_id a = client_id b -> a = b.
Proof.
  induction cs as [|x cs IH]; simpl; intros Hnd Ha Hb Heq.
  - by apply elem_of_nil in Ha.
  - apply NoDup_cons in Hnd as [Hx Hnd].
    apply elem_of_cons in Ha as [->|Ha]; apply elem_of_cons in Hb as [->|Hb].
    + done.
    + exfalso. apply Hx. rewrite Heq. apply list_elem_of_In.
      apply List.in_map. by apply list_elem_of_In.
    + exfalso. apply Hx. rewrite <- Heq. apply list_elem_of_In.
      apply List.in_map. by apply list_elem_of_In.
    + by apply IH.
Qed.

(** A name other than the removed client's still names a client after the
    removal, when ids are not repeated. *)
Lemma name_survives_removal (i n : string) (cs : list Client) :
  NoDup (List.map client_id cs) ->
  namesClient n cs ->
  isNameOf n (List.find (fun c => String.eqb (client_id c) i) cs) = false ->
  namesClient n (List.filter (fun c => negb (String.eqb (client_id c) i)) cs).
Proof.
  intros Hnd (c & Hc & Hn) Hother. exists c. split; [|done].
  apply list_elem_of_In. apply List.filter_In.
  split; [by apply list_elem_of_In|]. apply negb_true_iff.
  destruct (String.eqb_spec (client_id c) i) as [Hid|]; [|done]. exfalso.
  destruct (List.find _ cs) as [r|] eqn:Hfind.
  - apply find_client in Hfind as [Hr Hrid].
    assert (c = r) as -> by (apply (same_id_same_client cs); congruence).
    simpl in Hother. apply String.eqb_neq in Hother. congruence.
  - apply list_elem_of_In in Hc.
    pose proof (List.find_none _ _ Hfind c Hc) as Hne. simpl in Hne.
    apply String.eqb_neq in Hne. congruence.
Qed.

(** X10: when client ids are not repeated, a confirmed removal keeps the
    invoice selection and the client of the order draft pointing at a client:
    either of them that named a client before names a client of the
    collection afterwards, or is empty when no client is left. *)
Theorem handleRemoveClient_keeps_selection (i : string) (st : AppState) :
  NoDup (List.map client_id (clients st)) ->
  (namesClient (selectedClientForInvoice st) (clients st) ->
   namesClient (selectedClientForInvoice (handleRemoveClient i true st))
     (clients (handleRemoveClient i true st))
   \/ (clients (handleRemoveClient i true st) = []
       /\ selectedClientForInvoice (handleRemoveClient i true st) = ""))
  /\ (namesClient (draft_clientName (newOrder st)) (clients st) ->
      namesClient (draft_clientName (newOrder (handleRemoveClient i true st)))
        (clients (handleRemoveClient i true st))
      \/ (clients (handleRemoveClient i true st) = []
          /\ draft_clientName (newOrder (handleRemoveClient i true st)) = "")).
Proof.
  intros Hnd. unfold handleRemoveClient.
  destruct (isNameOf (selectedClientForInvoice st) _) eqn:Hsel,
    (isNameOf (draft_clientName (newOrder st)) _) eqn:Hdraft; simpl;
    (split; intros Hnames);
    first [ apply firstNameOr_names
          | left; by apply name_survives_removal ].
Qed.

(** X11: after a client has been added, the order draft is for the new
    client, who is in the collection; an invoice client is selected, the one
    selected before when there was one and the collection was not empty; and
    the input is cleared and hidden. *)
Theorem handleAddClient_selects (now : N) (st : AppState) :
  snd (handleAddClient now st) = Done ->
  draft_clientName (newOrder (fst (handleAddClient now st)))
    = trim (newClientName st)
  /\ namesClient (draft_clientName (newOrder (fst (handleAddClient now st))))
       (clients (fst (handleAddClient now st)))
  /\ selectedClientForInvoice (fst (handleAddClient now st)) <> ""
  /\ (clients st <> [] -> selectedClientForInvoice st <> "" ->
      selectedClientForInvoice (fst (handleAddClient now st))
      = selectedClientForInvoice st)
  /\ newClientName (fst (handleAddClient now st)) = ""
  /\ showAddClientInput (fst (handleAddClient now st)) = false.
Proof.
  unfold handleAddClient.
  destruct (String.eqb_spec (trim (newClientName st)) "") as [|Hne];
    [discriminate|].
  destruct (existsb _ _); [discriminate|]. intros _.
  assert (namesClient (trim (newClientName st))
            (clients st ++ [{| client_id := pretty now;
                               name := trim (newClientName st) |}])) as Hin.
  { eexists. split; [apply elem_of_app; right; apply list_elem_of_here|done]. }
  destruct (length (clients st) =? 0)%nat eqn:Hlen; simpl.
  - apply length_zero_nil in Hlen.
    split; [done|]. split; [exact Hin|]. split; [exact Hne|].
    split; [|done]. intros Hcs. contradiction.
  - destruct (falsy (selectedClientForInvoice st)) eqn:Hsel; simpl.
    + apply falsy_true in Hsel.
      split; [done|]. split; [exact Hin|]. split; [exact Hne|].
      split; [|done]. intros _ Hs. contradiction.
    + apply falsy_false in Hsel.
      split; [done|]. split; [exact Hin|]. split; [exact Hsel|]. done.
Qed.

Lemma handleAddClient_dup (now : N) (st : AppState) :
  trim (newClientName st) <> "" ->
  Exists (sameNameIgnoringCase (trim (newClientName st))) (clients st) ->
  handleAddClient now st = (st, Alert duplicateNameAlert).
Proof.
  intros Hne Hdup. unfold handleAddClient.
  destruct (String.eqb_spec (trim (newClientName st)) ""); [done|].
  apply duplicate_test in Hdup. by rewrite Hdup.
Qed.

(** X12: a name that has just been added is refused afterwards in any
    letter case, and the refusal leaves the client collection as it is. *)
Theorem added_name_is_refused (now later : N) (st : AppState) (again : string) :
  snd (handleAddClient now st) = Done ->
  trim again <> "" ->
  toLowerCase (trim again) = toLowerCase (trim (newClientName st)) ->
  handleAddClient later (setNewClientName again (fst (handleAddClient now st)))
  = (setNewClientName again (fst (handleAddClient now st)),
     Alert duplicateNameAlert).
Proof.
  intros Hdone Hne Hsame.
  apply (handleAddClient_dup later).
  - exact Hne.
  - simpl. apply Exists_exists.
    exists {| client_id := pretty now; name := trim (newClientName st) |}.
    split; [|by unfold sameNameIgnoringCase].
    revert Hdone. unfold handleAddClient.
    destruct (String.eqb _ ""); [discriminate|].
    destruct (existsb _ _); [discriminate|]. intros _.
    destruct (_ || _); simpl; apply elem_of_app; right; apply list_elem_of_here.
Qed.

(** X13: the mount selects the same client for the invoice and for the
    order draft.  Unless an empty client list was stored, it is the first
    client of the collection; with an empty stored list the collection is
    empty and the first predefined client is selected all the same. *)
Theorem mount_selects_first_client (today thisMonth : string)
  (so : option (list Order)) (sc : option (list Client)) :
  selectedClientForInvoice (mounted today thisMonth so sc)
    = draft_clientName (newOrder (mounted today thisMonth so sc))
  /\ (sc <> Some [] ->
      selectedClientForInvoice (mounted today thisMonth so sc)
        = firstName (clients (mounted today thisMonth so sc))
      /\ clients (mounted today thisMonth so sc) <> [])
  /\ (sc = Some [] ->
      clients (mounted today thisMonth so sc) = []
      /\ selectedClientForInvoice (mounted today thisMonth so sc)
         = firstName predefinedClients).
Proof.
  unfold mounted, mount.
  destruct so, sc as [[|c cs]|]; simpl;
    (split; [reflexivity|]); (split; [intros Hsc | intros Hsc]);
    first [ discriminate Hsc | by destruct Hsc | split; [reflexivity|] ];
    first [ reflexivity | discriminate ].
Qed.

End ClientFacts.

(** ** Expenses *)

Section ExpenseFacts.
Context {R : Runtime}.

Lemma expenseInvalid_true (d : ExpenseDraft) :
  expenseInvalid d = true
  <-> edraft_date d = "" \/ edraft_plateNumber d = ""
      \/ num_le (edraft_cost d) num_zero = true.
Proof.
  unfold expenseInvalid. rewrite !orb_true_iff, !falsy_true. tauto.
Qed.

Lemma expenseInvalid_false (d : ExpenseDraft) :
  expenseInvalid d = false <-> expenseValid d.
Proof.
  unfold expenseInvalid, expenseValid.
  rewrite !orb_false_iff, !falsy_false. tauto.
Qed.

(** X14: an expense save whose draft has an empty date or plate number, or a
    cost at most zero, is answered by the alert and changes nothing. *)
Theorem handleSaveExpense_rejects (today : string) (now : N)
  (st : ExpenseState) :
  edraft_date (newExpense st) = "" \/ edraft_plateNumber (newExpense st) = ""
  \/ num_le (edraft_cost (newExpense st)) num_zero = true ->
  handleSaveExpense today now st = (st, Alert expenseAlert).
Proof.
  intros Hbad. apply expenseInvalid_true in Hbad.
  unfold handleSaveExpense. by rewrite Hbad.
Qed.

(** X15: an expense save that passes validation reports no alert and resets
    the form; with an editing id set, every expense carrying that id is
    replaced at its position by the draft under that id and the others stay
    as and where they are; with none, the draft is appended under the
    decimal string of the clock reading. *)
Theorem handleSaveExpense_saves (today : string) (now : N)
  (st : ExpenseState) :
  expenseValid (newExpense st) ->
  snd (handleSaveExpense today now st) = Done
  /\ newExpense (fst (handleSaveExpense today now st))
     = defaultNewExpenseState today
  /\ (forall editing, editingExpenseId st = Some editing -> editing <> "" ->
        editingExpenseId (fst (handleSaveExpense today now st)) = None
        /\ length (expenses (fst (handleSaveExpense today now st)))
           = length (expenses st)
        /\ forall i e, expenses st !! i = Some e ->
             expenses (fst (handleSaveExpense today now st)) !! i
             = Some (if decide (expense_id e = editing)
                     then spreadExpense (newExpense st) editing
                     else e))
  /\ (editingExpenseId st = None \/ editingExpenseId st = Some "" ->
        expenses (fst (handleSaveExpense today now st))
        = expenses st ++ [spreadExpense (newExpense st) (pretty now)]).
Proof.
  intros Hvalid. apply expenseInvalid_false in Hvalid.
  unfold handleSaveExpense. rewrite Hvalid.
  split; [done|]. split; [done|]. split.
  - intros editing He Hne.
    assert (truthyId (editingExpenseId st) = Some editing) as ->
      by (by apply truthyId_Some).
    simpl. split; [done|]. split; [apply List.length_map|].
    intros i e Hi. rewrite lookup_map, Hi. simpl. f_equal.
    destruct (String.eqb_spec (expense_id e) editing); case_decide; done.
  - intros Hnone. apply truthyId_None in Hnone. by rewrite Hnone.
Qed.

Lemma same_id_same_expense (es : list Expense) (a b : Expense) :
  NoDup (List.map expense_id es) -> a ∈ es -> b ∈ es ->
  expense_id a = expense_id b -> a = b.
Proof.
  induction es as [|x es IH]; simpl; intros Hnd Ha Hb Heq.
  - by apply elem_of_nil in Ha.
  - apply NoDup_cons in Hnd as [Hx Hnd].
    apply elem_of_cons in Ha as [->|Ha]; apply elem_of_cons in Hb as [->|Hb].
    + done.
    + exfalso. apply Hx. rewrite Heq. apply list_elem_of_In.
      apply List.in_map. by apply list_elem_of_In.
    + exfalso. apply Hx. rewrite <- Heq. apply list_elem_of_In.
      apply List.in_map. by apply list_elem_of_In.
    + by apply IH.
Qed.

(** X16: with no id repeated among the expenses, opening an existing expense
    (whose id is not empty) in the form and saving it at once leaves the
    expense collection as it was. *)
Theorem edit_then_save_keeps_expenses (today : string) (now : N) (i : string)
  (st : ExpenseState) :
  NoDup (List.map expense_id (expenses st)) ->
  i <> "" ->
  (exists e, e ∈ expenses st /\ expense_id e = i) ->
  expenses (fst (handleSaveExpense today now (handleEditExpense i st)))
  = expenses st.
Proof.
  intros Hnd Hi (e & He & Hid). unfold handleEditExpense.
  destruct (List.find _ (expenses st)) as [f|] eqn:Hfind.
  2:{ exfalso. apply list_elem_of_In in He.
      pose proof (List.find_none _ _ Hfind e He) as Hne. simpl in Hne.
      apply String.eqb_neq in Hne. congruence. }
  apply List.find_some in Hfind as [Hf Hfid].
  apply list_elem_of_In in Hf. apply String.eqb_eq in Hfid.
  unfold handleSaveExpense.
  destruct (expenseInvalid _); [done|]. simpl.
  apply falsy_false in Hi. rewrite Hi. simpl.
  apply map_unchanged. intros x Hx.
  destruct (String.eqb_spec (expense_id x) i) as [Hxi|]; [|done].
  assert (x = f) as -> by (apply (same_id_same_expense (expenses st)); congruence).
  rewrite <- Hfid. by destruct f.
Qed.

(** X17: a confirmed deletion keeps, in their order, exactly the expenses
    with another id and never leaves the form editing the deleted id; a
    deletion that is not confirmed changes nothing. *)
Theorem handleDeleteExpense_removes (today : string) (i : string)
  (st : ExpenseState) :
  expenses (handleDeleteExpense today i true st)
    = filter (fun e => expense_id e <> i) (expenses st)
  /\ editingExpenseId (handleDeleteExpense today i true st) <> Some i
  /\ handleDeleteExpense today i false st = st.
Proof.
  unfold handleDeleteExpense.
  assert (List.filter (fun e => negb (String.eqb (expense_id e) i)) (expenses st)
          = filter (fun e => expense_id e <> i) (expenses st)) as <-.
  { apply filter_test. intros e. rewrite negb_true_iff.
    destruct (String.eqb_spec (expense_id e) i); split; done. }
  destruct (editingExpenseId st) as [j|] eqn:He; simpl.
  - destruct (String.eqb_spec j i) as [->|Hji]; simpl.
    + split; [done|]. split; [congruence|]. done.
    + split; [done|]. split; [congruence|]. done.
  - split; [done|]. split; [congruence|]. done.
Qed.

End ExpenseFacts.

(** ** The further facts on the sample data *)

Section MoreChecks.
#[local] Existing Instance ZRuntime.

Lemma oneOrder_ids : NoDup (List.map order_id (orders oneOrderState)).
Proof. apply (bool_decide_unpack _). vm_compute. exact I. Qed.

Lemma edit_then_save_keeps_orders_witness :
  orders (fst (handleSaveOrder "2024-05-10" 2000
                 (handleEditOrder "1000" oneOrderState)))
  = orders oneOrderState.
Proof.
  apply (edit_then_save_keeps_orders "2024-05-10" 2000 "1000" oneOrderState).
  - exact oneOrder_ids.
  - discriminate.
  - exists (spreadOrder sampleDraft "1000" true).
    split; [apply list_elem_of_here | reflexivity].
Defined.

Lemma save_then_delete_restores_witness :
  orders (handleDeleteOrder "2024-05-10" (pretty 2000%N) true
            (fst (handleSaveOrder "2024-05-10" 2000 oneOrderState)))
  = orders oneOrderState.
Proof.
  apply (save_then_delete_restores "2024-05-10" 2000 oneOrderState).
  - exact sampleDraft_valid.
  - reflexivity.
  - intros o Ho. apply list_elem_of_singleton in Ho. subst o.
    vm_compute. discriminate.
Defined.

Lemma saved_orders_meet_rule_witness :
  Forall orderMeetsRule
    (orders (run "2024-05-10"
               (mount None None (initialState "2024-05-10" "2024-05"))
               removeThenSave)).
Proof.
  apply (saved_orders_meet_rule "2024-05-10" "2024-05" None None removeThenSave).
  intros os Hos. discriminate.
Defined.

Lemma save_new_order_total_witness :
  totalUnpaidAmount
    (orders (fst (handleSaveOrder "2024-05-10" 2000
                    (setOrderPaid false oneOrderState))))
    "Omar Shareif" "2024-05"
  = (totalUnpaidAmount (orders oneOrderState) "Omar Shareif" "2024-05"
     + 100)%Z.
Proof.
  apply (save_new_order_total "2024-05-10" 2000
           (setOrderPaid false oneOrderState) "Omar Shareif" "2024-05").
  - exact sampleDraft_valid.
  - reflexivity.
  - split; [reflexivity|]. split; [by exists "-10"|]. split; reflexivity.
Defined.

Lemma generateInvoicePdf_document_witness :
  selectedClientForInvoice invoiceState <> ""
  /\ selectedMonthForInvoice invoiceState <> "".
Proof.
  destruct (generateInvoicePdf_document invoiceState
              (Some (setSelectedMonthForInvoice "2024-06" invoiceState))
              "Acme_Invoice_2024-05.pdf"
              (invoiceElement (setSelectedMonthForInvoice "2024-06" invoiceState)))
    as (_ & Hclient & Hmonth & _).
  - vm_compute. reflexivity.
  - split; [exact Hclient | exact Hmonth].
Defined.

Lemma predefined_names : namesUnique (clients mountedState).
Proof. apply (bool_decide_unpack _). vm_compute. exact I. Qed.

Lemma client_names_stay_unique_witness :
  namesUnique
    (clients (run "2024-05-10" mountedState
                [ChangeNewClientName "omar shareif"; ClickAddClient 1000;
                 ChangeNewClientName "Zed"; ClickAddClient 2000;
                 ClickRemoveClient "3" true])).
Proof.
  apply (client_names_stay_unique "2024-05-10" mountedState).
  exact predefined_names.
Defined.

Lemma predefined_ids : NoDup (List.map client_id (clients mountedState)).
Proof. apply (bool_decide_unpack _). vm_compute. exact I. Qed.

Lemma handleRemoveClient_keeps_selection_witness :
  namesClient (selectedClientForInvoice mountedState) (clients mountedState)
  /\ (namesClient
        (selectedClientForInvoice (handleRemoveClient "1" true mountedState))
        (clients (handleRemoveClient "1" true mountedState))
      \/ (clients (handleRemoveClient "1" true mountedState) = []
          /\ selectedClientForInvoice (handleRemoveClient "1" true mountedState)
             = "")).
Proof.
  assert (namesClient (selectedClientForInvoice mountedState)
            (clients mountedState)) as Hsel.
  { exists {| client_id := "1"; name := "Hassan Bobo" |}.
    split; [apply list_elem_of_here | reflexivity]. }
  split; [exact Hsel|].
  apply (handleRemoveClient_keeps_selection "1" mountedState predefined_ids).
  exact Hsel.
Defined.

Lemma typing_added : snd (handleAddClient 1000 typingState) = Done.
Proof. vm_compute. reflexivity. Qed.

Lemma handleAddClient_selects_witness :
  draft_clientName (newOrder (fst (handleAddClient 1000 typingState)))
  = trim (newClientName typingState).
Proof.
  apply (handleAddClient_selects 1000 typingState). exact typing_added.
Defined.

Lemma added_name_is_refused_witness :
  handleAddClient 2000
    (setNewClientName "ZED CO" (fst (handleAddClient 1000 typingState)))
  = (setNewClientName "ZED CO" (fst (handleAddClient 1000 typingState)),
     Alert duplicateNameAlert).
Proof.
  apply (added_name_is_refused 1000 2000 typingState "ZED CO").
  - exact typing_added.
  - vm_compute. discriminate.
  - vm_compute. reflexivity.
Defined.

Lemma handleSaveExpense_rejects_witness :
  handleSaveExpense "2024-05-12" 1000 emptyExpenseState
  = (emptyExpenseState, Alert expenseAlert).
Proof.
  apply (handleSaveExpense_rejects "2024-05-12" 1000 emptyExpenseState).
  right. left. reflexivity.
Defined.

Lemma dieselDraft_valid : expenseValid dieselDraft.
Proof. repeat split; discriminate. Qed.

Lemma handleSaveExpense_saves_witness :
  expenses (fst (handleSaveExpense "2024-05-12" 2000 oneExpenseState))
  = expenses oneExpenseState ++ [spreadExpense dieselDraft (pretty 2000%N)].
Proof.
  destruct (handleSaveExpense_saves "2024-05-12" 2000 oneExpenseState
              dieselDraft_valid) as (_ & _ & _ & Hadd).
  apply Hadd. left. reflexivity.
Defined.

Lemma oneExpense_ids : NoDup (List.map expense_id (expenses oneExpenseState)).
Proof. apply (bool_decide_unpack _). vm_compute. exact I. Qed.

Lemma edit_then_save_keeps_expenses_witness :
  expenses (fst (handleSaveExpense "2024-05-12" 2000
                   (handleEditExpense "1000" oneExpenseState)))
  = expenses oneExpenseState.
Proof.
  apply (edit_then_save_keeps_expenses "2024-05-12" 2000 "1000" oneExpenseState).
  - exact oneExpense_ids.
  - discriminate.
  - exists (spreadExpense dieselDraft "1000").
    split; [apply list_elem_of_here | reflexivity].
Defined.

End MoreChecks.
